(** * OCDC colour models: a shallow embedding of [color_models.py]

    The development follows the layout of the Python module:

    - [np] holds the part of NumPy the module relies on.  An [ndarray] is a
      shape together with its elements in C (row-major) order, which is how
      NumPy stores a freshly read raster; [reshape] therefore only changes
      the shape, and the raster scan order of an image is the order of its
      flat element sequence.
    - [ReferencePixels], [MahalanobisDistance] and
      [GaussianMixtureModelDistance] are the three classes.  An object is a
      record of its attributes, a method is a function from the object to a
      [result] holding the updated object, and a Python exception is the
      [Raise] branch of [result].
    - Floating point numbers are idealised by the elements of a real closed
      field [R] (exact arithmetic, [Num.sqrt] for [np.sqrt]); integer raster
      samples of the annotation image are [int].  The idealisation has no
      rounding, no NaN and no infinity, and [np.linalg.inv] refuses exactly
      the singular matrices; the 64-bit program rounds every sum, turns the
      root of a negative number into NaN, and refuses a matrix only when
      LAPACK meets a zero pivot.  Lemmas about values (the distance
      formula, the covariance of an example) hold in the idealisation and
      serve the proofs; the theorems are kept to what does not depend on
      the value of a rounded number: shapes, the order of the cells, which
      exception is raised and when, and which inputs an output depends on.
    - [print] calls are dropped from the embedding: they change no
      attribute. *)

From HB Require Import structures.
From mathcomp Require Import boot order algebra field.

Set Implicit Arguments.
Unset Strict Implicit.
Unset Printing Implicit Defensive.

Import GRing.Theory Num.Theory Order.POrderTheory.
Local Open Scope ring_scope.

(** ** Exceptions and the error monad *)

(** The attributes that exist only once [calculate_statistics] has run. *)
Inductive attribute := attr_covariance | attr_average | attr_gmm.

(** The two messages the module passes to [Exception(...)]; the numbers are
    the values interpolated into the f-strings. *)
Inductive message :=
  | Expected_BW_or_RGB_mask of nat
  | Not_enough_annotated_pixels of nat & nat.

Inductive exn :=
  | Exception of message
  | IndexError
  | ValueError
  | LinAlgError
  | ZeroDivisionError
  | AttributeError of attribute
  | AssertionError.

Inductive result (A : Type) :=
  | Ok of A
  | Raise of exn.

Arguments Ok {A} _.
Arguments Raise {A} _.

Definition bind {A B : Type} (r : result A) (k : A -> result B) : result B :=
  match r with
  | Ok a => k a
  | Raise e => Raise e
  end.

Notation "x <- r ;; k" := (bind r (fun x => k))
  (at level 100, r at next level, right associativity).

Definition is_ok {A : Type} (r : result A) : bool :=
  if r is Ok _ then true else false.

(** Reading an attribute that may not have been assigned yet. *)
Definition getattr {A : Type} (name : attribute) (field : option A)
  : result A :=
  if field is Some v then Ok v else Raise (AttributeError name).

(** ** The NumPy fragment *)

Module np.

Section Arrays.

Variable T : Type.

Record ndarray := NdArray { shape : seq nat; flat : seq T }.

Definition numel (sh : seq nat) : nat := foldr muln 1%N sh.

Definition ndim (a : ndarray) : nat := size (shape a).

Definition well_formed (a : ndarray) : bool :=
  size (flat a) == numel (shape a).

(** [a.shape[k]]; a missing axis is Python's [IndexError] on the tuple. *)
Definition shape_at (a : ndarray) (k : nat) : result nat :=
  if (k < ndim a)%N then Ok (nth 0%N (shape a) k) else Raise IndexError.

(** [a[i, j]] and [a[b, r, c]] read from the flat sequence; [x0] stands
    for an element that does not exist. *)
Definition item2 (x0 : T) (a : ndarray) (i j : nat) : T :=
  nth x0 (flat a) (i * nth 0%N (shape a) 1 + j).

Definition item3 (x0 : T) (a : ndarray) (b r c : nat) : T :=
  nth x0 (flat a)
      ((b * nth 0%N (shape a) 1 + r) * nth 0%N (shape a) 2 + c).

(** [np.zeros(0)], the placeholder the constructors store. *)
Definition zeros0 : ndarray := NdArray [:: 0%N] [::].

(** Number of elements of one slice [a[b, ...]] along the first axis. *)
Definition inner (a : ndarray) : nat := numel (behead (shape a)).

(** The elements of [a[b, ...]], in order. *)
Definition slice0 (a : ndarray) (b : nat) : seq T :=
  take (inner a) (drop (b * inner a) (flat a)).

(** [a[b, :, :]] for an index [b] the caller has checked against
    [a.shape[0]]. *)
Definition plane (a : ndarray) (b : nat) : ndarray :=
  NdArray (behead (shape a)) (slice0 a b).

(** An integer index on an axis of length [n]: negative indices count from
    the end, anything outside [-n, n) is out of bounds. *)
Definition normalize_index (n : nat) (i : int) : option nat :=
  match i with
  | Posz k => if (k < n)%N then Some k else None
  | Negz k => if (k < n)%N then Some (n - k.+1)%N else None
  end.

Fixpoint normalize_indices (n : nat) (idx : seq int) : option (seq nat) :=
  if idx is i :: idx' then
    if normalize_index n i is Some k then
      omap (cons k) (normalize_indices n idx')
    else None
  else Some [::].

(** [a[idx, :, ..., :]] with [colons] full slices after the index tuple
    [idx]: more indices than axes, or an index out of bounds, is an
    [IndexError]; the result stacks the selected slices in the order of
    [idx]. *)
Definition take0 (colons : nat) (a : ndarray) (idx : seq int)
  : result ndarray :=
  if (ndim a < colons.+1)%N then Raise IndexError else
  if normalize_indices (head 0%N (shape a)) idx is Some ks then
    Ok (NdArray (size idx :: behead (shape a))
                (flatten [seq slice0 a k | k <- ks]))
  else Raise IndexError.

(** [np.reshape(a, sh)] with every length given. *)
Definition reshape (a : ndarray) (sh : seq nat) : result ndarray :=
  if size (flat a) == numel sh then Ok (NdArray sh (flat a))
  else Raise ValueError.

(** [np.reshape(a, (n, -1))]: the second length is inferred, which NumPy
    refuses when [n] is zero or does not divide the size. *)
Definition reshape_rows (a : ndarray) (n : nat) : result ndarray :=
  if (n == 0)%N || ~~ (n %| size (flat a))%N then Raise ValueError
  else Ok (NdArray [:: n; (size (flat a) %/ n)%N] (flat a)).

End Arrays.

Arguments zeros0 {T}.

(** [a[:, m]] for a three-dimensional [a] and a two-dimensional boolean
    [m]: the boolean axes must match the last two axes of [a]; every band
    keeps its elements at the true cells of [m], in the order of [m].
    Arrays of other ranks do not reach this function (a raster is always
    read as a three-dimensional array); NumPy rejects those with fewer axes
    with the same exception. *)
Definition take_mask {T : Type} (a : ndarray T) (m : ndarray bool)
  : result (ndarray T) :=
  match shape a, shape m with
  | [:: nb; h; w], [:: h'; w'] =>
      if (h == h') && (w == w') then
        Ok (NdArray [:: nb; count id (flat m)]
              (flatten [seq mask (flat m) (slice0 a b) | b <- iota 0 nb]))
      else Raise IndexError
  | _, _ => Raise IndexError
  end.

(** Element-wise operations; the operands of the binary ones have equal
    shapes wherever the module applies them. *)
Section Elementwise.

Variables A B C : Type.

Definition map1 (f : A -> B) (a : ndarray A) : ndarray B :=
  NdArray (shape a) [seq f x | x <- flat a].

Definition map2 (f : A -> B -> C) (a : ndarray A) (b : ndarray B)
  : ndarray C :=
  NdArray (shape a) [seq f x.1 x.2 | x <- zip (flat a) (flat b)].

End Elementwise.

(** [a > c], [a < c], [a & b], [np.where(c, x, y)], [a == c]. *)
Definition gt (a : ndarray int) (c : int) : ndarray bool :=
  map1 (fun x => c < x) a.

Definition lt (a : ndarray int) (c : int) : ndarray bool :=
  map1 (fun x => x < c) a.

Definition and_ (a b : ndarray bool) : ndarray bool := map2 andb a b.

Definition where_ (c : ndarray bool) (x y : int) : ndarray int :=
  map1 (fun b : bool => if b then x else y) c.

Definition eq_ (a : ndarray int) (c : int) : ndarray bool :=
  map1 (fun x => x == c) a.

(** The numeric routines, on two-dimensional arrays of numbers.  The
    element in row [i] and column [j] of an array with [n] columns sits at
    position [i * n + j] of its flat sequence. *)
Section Numeric.

Variable R : rcfType.

Definition nrows (a : ndarray R) : nat := nth 0%N (shape a) 0.
Definition ncols (a : ndarray R) : nat := nth 0%N (shape a) 1.

Definition at1 (a : ndarray R) (i : nat) : R := nth 0 (flat a) i.
Definition at2 (a : ndarray R) (i j : nat) : R :=
  nth 0 (flat a) (i * ncols a + j).

(** The [m] by [n] array whose element [(i, j)] is [f i j]. *)
Definition mk2 (m n : nat) (f : nat -> nat -> R) : ndarray R :=
  NdArray [:: m; n] (mkseq (fun k => f (k %/ n)%N (k %% n)%N) (m * n)).

(** [a.transpose()] of a two-dimensional array. *)
Definition transpose (a : ndarray R) : ndarray R :=
  mk2 (ncols a) (nrows a) (fun j i => at2 a i j).

(** [a.squeeze()]: axes of length one are dropped. *)
Definition squeeze (a : ndarray R) : ndarray R :=
  NdArray [seq d <- shape a | d != 1%N] (flat a).

(** [a.mean(axis=1)]: the mean of every row. *)
Definition mean_axis1 (a : ndarray R) : ndarray R :=
  NdArray [:: nrows a]
    (mkseq (fun i => (\sum_(0 <= k < ncols a) at2 a i k) / (ncols a)%:R)
           (nrows a)).

(** [np.average(a, axis=1)] without weights: [avg = a.mean(axis)], after
    which NumPy computes the scale [a.size / avg.size] with Python's
    division, also when the scale is not asked for.  An array without rows
    has an [avg] without elements, and the division raises
    [ZeroDivisionError]. *)
Definition average_axis1 (a : ndarray R) : result (ndarray R) :=
  let avg := mean_axis1 a in
  if numel (shape avg) == 0%N then Raise ZeroDivisionError else Ok avg.

(** [np.cov(a)]: rows are variables, columns are observations; the rows
    are centred, multiplied with each other and scaled by [1 / (N - 1)],
    and the result is squeezed, so that one variable gives a
    zero-dimensional array.  With fewer than two observations NumPy
    divides by zero; the model is meant for [1 < N], which the floor of 100
    annotated pixels guarantees. *)
Definition cov (a : ndarray R) : ndarray R :=
  if nrows a == 0%N then NdArray [:: 0%N; 0%N] [::] else
  let avg := mean_axis1 a in
  let X i k := at2 a i k - at1 avg i in
  let fact := (ncols a - 1)%N in
  squeeze (mk2 (nrows a) (nrows a)
    (fun i j => (\sum_(0 <= k < ncols a) X i k * X j k) * (1 / fact%:R))).

(** The matrix an [m] by [n] array denotes, and back. *)
Definition to_mx (m n : nat) (a : ndarray R) : 'M[R]_(m, n) :=
  \matrix_(i, j) nth 0 (flat a) (i * n + j).

Definition entry (m n : nat) (A : 'M[R]_(m, n)) (i j : nat) : R :=
  if insub i is Some i' then
    if insub j is Some j' then A i' j' else 0
  else 0.

Definition of_mx (m n : nat) (A : 'M[R]_(m, n)) : ndarray R :=
  mk2 m n (entry A).

(** [np.linalg.inv(a)]: anything with fewer than two axes, a matrix that
    is not square and a singular matrix are a [LinAlgError].  Stacks of
    matrices (three axes or more) are outside the model: [np.cov] returns
    none.  The first two refusals are NumPy's own checks and are exact;
    the third is LAPACK's, which the idealisation replaces by exact
    singularity. *)
Definition linalg_inv (a : ndarray R) : result (ndarray R) :=
  match shape a with
  | [:: m; n] =>
      if m != n then Raise LinAlgError
      else if to_mx n n a \in unitmx then Ok (of_mx (invmx (to_mx n n a)))
      else Raise LinAlgError
  | _ => Raise LinAlgError
  end.

(** [a - v] for a two-dimensional [a] and a one-dimensional [v], with
    NumPy's broadcasting: the lengths of the last axes agree or one of
    them is one. *)
Definition sub_rows (a v : ndarray R) : result (ndarray R) :=
  let n := ncols a in
  let n' := nth 0%N (shape v) 0 in
  if (n == n') || (n == 1%N) || (n' == 1%N) then
    Ok (mk2 (nrows a) (maxn n n')
          (fun p i => at2 a p (if n == 1%N then 0%N else i)
                      - at1 v (if n' == 1%N then 0%N else i)))
  else Raise ValueError.

(** [a @ b] for two-dimensional arrays. *)
Definition matmul (a b : ndarray R) : result (ndarray R) :=
  if ncols a != nrows b then Raise ValueError
  else Ok (mk2 (nrows a) (ncols b)
             (fun p j => \sum_(0 <= i < ncols a) at2 a p i * at2 b i j)).

(** [a * b], element by element, for arrays of one shape. *)
Definition multiply (a b : ndarray R) : result (ndarray R) :=
  if shape a == shape b then Ok (map2 *%R a b) else Raise ValueError.

(** [np.sum(a, axis=1)]. *)
Definition sum_axis1 (a : ndarray R) : ndarray R :=
  NdArray [:: nrows a]
    (mkseq (fun p => \sum_(0 <= i < ncols a) at2 a p i) (nrows a)).

(** [np.sqrt(a)], element by element.  The idealisation has no NaN: the
    root of a negative element is 0 here and NaN in NumPy. *)
Definition sqrt (a : ndarray R) : ndarray R := map1 Num.sqrt a.

End Numeric.

End np.

(** ** Rasters on disk

    [rasterio.open(path).read()] returns the whole raster as an array
    indexed [band, row, col].  A path is modelled by the dataset stored
    under it. *)

Module rasterio.

Record dataset (T : Type) := Dataset {
  count : nat;
  height : nat;
  width : nat;
  samples : seq T
}.

Definition read {T : Type} (f : dataset T) : np.ndarray T :=
  np.NdArray [:: count f; height f; width f] (samples f).

(** A dataset holds one sample per band and cell. *)
Definition valid {T : Type} (f : dataset T) : bool :=
  size (samples f) == (count f * (height f * width f))%N.

End rasterio.

(** [range(stop)] for a Python integer [stop]. *)
Definition range (stop : int) : seq int :=
  if stop is Posz n then [seq Posz i | i <- iota 0 n] else [::].

(** ** class ReferencePixels *)

Module ReferencePixels.

Section Class.

Variable T : Type.

Record t := Make {
  reference_image_filename : rasterio.dataset T;
  mask_filename : rasterio.dataset int;
  bands_to_use : option (seq int);
  reference_image : np.ndarray T;
  mask : np.ndarray int;
  values : np.ndarray T
}.

Definition set_reference_image (self : t) (a : np.ndarray T) : t :=
  Make (reference_image_filename self) (mask_filename self)
       (bands_to_use self) a (mask self) (values self).

Definition set_mask (self : t) (a : np.ndarray int) : t :=
  Make (reference_image_filename self) (mask_filename self)
       (bands_to_use self) (reference_image self) a (values self).

Definition set_bands_to_use (self : t) (b : seq int) : t :=
  Make (reference_image_filename self) (mask_filename self)
       (Some b) (reference_image self) (mask self) (values self).

Definition set_values (self : t) (a : np.ndarray T) : t :=
  Make (reference_image_filename self) (mask_filename self)
       (bands_to_use self) (reference_image self) (mask self) a.

Definition load_reference_image (self : t) (filename : rasterio.dataset T) : t :=
  set_reference_image self (rasterio.read filename).

Definition load_mask (self : t) (filename : rasterio.dataset int) : t :=
  set_mask self (rasterio.read filename).

Definition default_lower_range : int * int * int := (245, 0, 0).
Definition default_higher_range : int * int * int := (256, 10, 10).

(** The array [pixel_mask] of [generate_pixel_mask]: 255 on the annotated
    cells and 0 elsewhere. *)
Definition pixel_mask (lower_range higher_range : int * int * int)
    (self : t) : result (np.ndarray int) :=
  n <- np.shape_at (mask self) 0 ;;
  if (n == 3%N) || (n == 4%N) then
    Ok (np.where_
          (np.and_ (np.gt (np.plane (mask self) 0) lower_range.1.1)
          (np.and_ (np.lt (np.plane (mask self) 0) higher_range.1.1)
          (np.and_ (np.gt (np.plane (mask self) 1) lower_range.1.2)
          (np.and_ (np.lt (np.plane (mask self) 1) higher_range.1.2)
          (np.and_ (np.gt (np.plane (mask self) 2) lower_range.2)
                   (np.lt (np.plane (mask self) 2) higher_range.2))))))
          255 0)
  else if n == 1%N then
    Ok (np.where_ (np.gt (np.plane (mask self) 0) 127) 255 0)
  else Raise (Exception (Expected_BW_or_RGB_mask n)).

(** The boolean index [pixel_mask == 255]: the annotated (foreground)
    cells. *)
Definition foreground (lower_range higher_range : int * int * int)
    (self : t) : result (np.ndarray bool) :=
  pm <- pixel_mask lower_range higher_range self ;;
  Ok (np.eq_ pm 255).

Definition generate_pixel_mask (lower_range higher_range : int * int * int)
    (self : t) : result t :=
  fg <- foreground lower_range higher_range self ;;
  v <- np.take_mask (reference_image self) fg ;;
  v' <- (if bands_to_use self is Some bands then np.take0 1 v bands
         else Ok (np.NdArray (1%N :: np.shape v) (np.flat v))) ;;
  Ok (set_values self v').

Definition min_annotated_pixels : nat := 100.

Definition show_statistics_of_pixel_mask (self : t) : result t :=
  n <- np.shape_at (values self) 1 ;;
  if (n <= min_annotated_pixels)%N then
    Raise (Exception (Not_enough_annotated_pixels min_annotated_pixels n))
  else Ok self.

(** The first four lines of [initialize]: both rasters are read and a
    missing band selection is replaced by its default. *)
Definition loaded (self : t) : t :=
  let self := load_reference_image self (reference_image_filename self) in
  let self := load_mask self (mask_filename self) in
  if bands_to_use self is None then
    set_bands_to_use self
      (range (Posz (nth 0%N (np.shape (reference_image self)) 0) - 1))
  else self.

Definition initialize (self : t) : result t :=
  self <- generate_pixel_mask default_lower_range default_higher_range
            (loaded self) ;;
  show_statistics_of_pixel_mask self.

(** [ReferencePixels(reference=..., annotated=..., bands_to_use=...)]. *)
Definition init (reference : rasterio.dataset T) (annotated : rasterio.dataset int)
    (bands : option (seq int)) : result t :=
  initialize (Make reference annotated bands np.zeros0 np.zeros0 np.zeros0).

End Class.

End ReferencePixels.

(** ** class BaseDistance

    Both [calculate_distance] methods start with the same two statements:
    the assertion on the band selection and the array [pixels], which has
    one row per cell of the image, in raster order, and one column per
    selected band. *)

Module BaseDistance.

Section Class.

Variable R : rcfType.

Definition pixels_of (bands_to_use : option (seq int))
    (image : np.ndarray R) : result (np.ndarray R) :=
  bands <- (if bands_to_use is Some b then Ok b else Raise AssertionError) ;;
  sel <- np.take0 2 image bands ;;
  flat_sel <- np.reshape_rows sel (size bands) ;;
  Ok (np.transpose flat_sel).

End Class.

End BaseDistance.

(** ** class MahalanobisDistance

    [BaseDistance.__init__] builds the [ReferencePixels] and copies its band
    selection; [calculate_statistics] creates the attributes [covariance]
    and [average], which do not exist before ([None] below).  When
    [np.average] raises, the exception leaves [calculate_statistics] and
    [initialize]. *)

Module MahalanobisDistance.

Section Class.

Variable R : rcfType.

Record t := Make {
  reference_pixels : ReferencePixels.t R;
  bands_to_use : option (seq int);
  covariance : option (np.ndarray R);
  average : option (np.ndarray R)
}.

Definition init (reference : rasterio.dataset R)
    (annotated : rasterio.dataset int) (bands : option (seq int))
  : result t :=
  rp <- ReferencePixels.init reference annotated bands ;;
  Ok (Make rp (ReferencePixels.bands_to_use rp) None None).

Definition calculate_statistics (self : t) : result t :=
  let values := ReferencePixels.values (reference_pixels self) in
  let covariance := np.cov values in
  average <- np.average_axis1 values ;;
  Ok (Make (reference_pixels self) (bands_to_use self)
        (Some covariance) (Some average)).

(** [print] of the two attributes. *)
Definition show_statistics (self : t) : result t :=
  _ <- getattr attr_average (average self) ;;
  _ <- getattr attr_covariance (covariance self) ;;
  Ok self.

Definition initialize (self : t) : result t :=
  self <- calculate_statistics self ;;
  show_statistics self.

(** The array [distance] before the square root is taken. *)
Definition squared_distance (self : t) (image : np.ndarray R)
  : result (np.ndarray R) :=
  pixels <- BaseDistance.pixels_of (bands_to_use self) image ;;
  cov <- getattr attr_covariance (covariance self) ;;
  inv_cov <- np.linalg_inv cov ;;
  avg <- getattr attr_average (average self) ;;
  diff <- np.sub_rows pixels avg ;;
  prod <- np.matmul diff inv_cov ;;
  modified_dot_product <- np.multiply diff prod ;;
  Ok (np.sum_axis1 modified_dot_product).

Definition calculate_distance (self : t) (image : np.ndarray R)
  : result (np.ndarray R) :=
  distance <- squared_distance self image ;;
  let distance := np.sqrt distance in
  h <- np.shape_at image 1 ;;
  w <- np.shape_at image 2 ;;
  np.reshape distance [:: 1%N; h; w].

End Class.

End MahalanobisDistance.

(** ** sklearn.mixture.GaussianMixture

    The estimator is external.  A fitted estimator is described by its
    parameters; how [fit] finds them (expectation-maximisation from a random
    start) and the log-density [log_prob] of one sample under given
    parameters are taken as given.  [score_samples] validates its argument
    (two axes, at least one sample, the number of features seen by [fit])
    and scores every row on its own. *)

Module mixture.

Section Estimator.

Variable R : rcfType.

Record GaussianMixture := Fitted {
  n_components : nat;
  n_features_in_ : nat;
  weights_ : np.ndarray R;
  means_ : np.ndarray R;
  covariances_ : np.ndarray R
}.

Variable log_prob : GaussianMixture -> seq R -> R.

Definition score_samples (g : GaussianMixture) (X : np.ndarray R)
  : result (np.ndarray R) :=
  match np.shape X with
  | [:: n; f] =>
      if (0 < n)%N && (0 < f)%N && (f == n_features_in_ g) then
        Ok (np.NdArray [:: n]
              (mkseq (fun p => log_prob g (mkseq (fun i => np.at2 X p i) f))
                     n))
      else Raise ValueError
  | _ => Raise ValueError
  end.

End Estimator.

End mixture.

(** ** class GaussianMixtureModelDistance *)

Module GaussianMixtureModelDistance.

Section Class.

Variable R : rcfType.

(** [GaussianMixture(n_components, covariance_type="full").fit(X)]. *)
Variable fit : nat -> np.ndarray R -> result (mixture.GaussianMixture R).

Variable log_prob : mixture.GaussianMixture R -> seq R -> R.

Record t := Make {
  reference_pixels : ReferencePixels.t R;
  bands_to_use : option (seq int);
  n_components : nat;
  gmm : option (mixture.GaussianMixture R);
  average : option (np.ndarray R);
  covariance : option (np.ndarray R)
}.

Definition init (n : nat) (reference : rasterio.dataset R)
    (annotated : rasterio.dataset int) (bands : option (seq int))
  : result t :=
  rp <- ReferencePixels.init reference annotated bands ;;
  Ok (Make rp (ReferencePixels.bands_to_use rp) n None None None).

Definition calculate_statistics (self : t) : result t :=
  let values := ReferencePixels.values (reference_pixels self) in
  g <- fit (n_components self) (np.transpose values) ;;
  Ok (Make (reference_pixels self) (bands_to_use self) (n_components self)
           (Some g) (Some (mixture.means_ g))
           (Some (mixture.covariances_ g))).

Definition calculate_distance (self : t) (image : np.ndarray R)
  : result (np.ndarray R) :=
  pixels <- BaseDistance.pixels_of (bands_to_use self) image ;;
  g <- getattr attr_gmm (gmm self) ;;
  loglikelihood <- mixture.score_samples log_prob g pixels ;;
  h <- np.shape_at image 1 ;;
  w <- np.shape_at image 2 ;;
  np.reshape loglikelihood [:: 1%N; h; w].

(** [print] of the estimator and of its two parameter arrays. *)
Definition show_statistics (self : t) : result t :=
  _ <- getattr attr_gmm (gmm self) ;;
  Ok self.

(** [BaseDistance.initialize] on a mixture model. *)
Definition initialize (self : t) : result t :=
  self <- calculate_statistics self ;;
  show_statistics self.

End Class.

End GaussianMixtureModelDistance.

(** ** Vocabulary of the statements *)

(** The true cells of a boolean grid, as flat positions in raster order. *)
Definition true_cells (m : bitseq) : seq nat := mask m (iota 0 (size m)).

(** The band selection [initialize] works with: the one given, or all
    bands of the reference but the last. *)
Definition effective_bands (T : Type) (reference : rasterio.dataset T)
    (bands : option (seq int)) : seq int :=
  if bands is Some b then b
  else [seq Posz i | i <- iota 0 (rasterio.count reference).-1].


Section Vocabulary.

Variable R : rcfType.

(** The values of the selected bands [ks] at the cell [(r, c)] of an
    image, in selection order, as a row vector. *)
Definition pixel_vector (B : nat) (image : np.ndarray R) (ks : seq nat)
    (r c : nat) : 'rV[R]_B :=
  \row_(i < B) np.item3 0 image (nth 0%N ks i) r c.

(** A one-dimensional array as a row vector. *)
Definition mean_vector (B : nat) (average : np.ndarray R) : 'rV[R]_B :=
  \row_(i < B) np.at1 average i.

(** [(x - m)^T S^-1 (x - m)] and its square root, the Mahalanobis distance
    of [x] from a distribution of mean [m] and covariance [S]. *)
Definition quadratic_form (B : nat) (S : 'M[R]_B) (m x : 'rV[R]_B) : R :=
  ((x - m) *m invmx S *m (x - m)^T) 0 0.

Definition mahalanobis (B : nat) (S : 'M[R]_B) (m x : 'rV[R]_B) : R :=
  Num.sqrt (quadratic_form S m x).

(** The textbook statistics of a sample of [N] observations (columns) of
    [B] variables (rows): the mean of every variable and the unbiased
    sample covariance. *)
Definition data_matrix (B N : nat) (values : np.ndarray R) : 'M[R]_(B, N) :=
  \matrix_(i, k) np.at2 values i k.

Definition sample_mean (B N : nat) (X : 'M[R]_(B, N)) : 'rV[R]_B :=
  \row_i ((\sum_k X i k) / N%:R).

Definition centred (B N : nat) (X : 'M[R]_(B, N)) : 'M[R]_(B, N) :=
  \matrix_(i, k) (X i k - sample_mean X 0 i).

Definition sample_covariance (B N : nat) (X : 'M[R]_(B, N)) : 'M[R]_B :=
  ((N - 1)%N%:R)^-1 *: (centred X *m (centred X)^T).

(** Two images carry the same values at the cell [(r, c)] on every
    selected band. *)
Definition agree_at (bands : seq int) (nb : nat) (image1 image2 : np.ndarray R)
    (r c : nat) : Prop :=
  forall i k, (i < size bands)%N ->
    np.normalize_index nb (nth 0 bands i) = Some k ->
    np.item3 0 image1 k r c = np.item3 0 image2 k r c.

(** The object a successful [calculate_statistics] returns. *)
Definition with_statistics (self : MahalanobisDistance.t R)
  : MahalanobisDistance.t R :=
  let values :=
    ReferencePixels.values (MahalanobisDistance.reference_pixels self) in
  MahalanobisDistance.Make (MahalanobisDistance.reference_pixels self)
    (MahalanobisDistance.bands_to_use self)
    (Some (np.cov values)) (Some (np.mean_axis1 values)).

End Vocabulary.

(** ** Example inputs *)

Module Examples.

(** A reference raster of three bands on a two by two grid and a grey
    annotation of the same extent. *)
Definition reference_2x2 : rasterio.dataset nat :=
  rasterio.Dataset 3 2 2
    [:: 1; 2; 3; 4; 11; 12; 13; 14; 21; 22; 23; 24]%N.

Definition annotation_2x2 : rasterio.dataset int :=
  rasterio.Dataset 1 2 2 [:: 127; 128; 255; 0].

Definition sampler_2x2 : ReferencePixels.t nat :=
  ReferencePixels.loaded
    (ReferencePixels.Make reference_2x2 annotation_2x2
       (Some [:: 2; -3; 1]) np.zeros0 np.zeros0 np.zeros0).

(** An object whose annotation is a single RGB pixel. *)
Definition rgb_pixel (r g b : int) : ReferencePixels.t nat :=
  ReferencePixels.loaded
    (ReferencePixels.Make (rasterio.Dataset 1 1 1 [:: 0%N])
       (rasterio.Dataset 3 1 1 [:: r; g; b]) None
       np.zeros0 np.zeros0 np.zeros0).

(** Rasters of one row: a reference of [count] bands that holds [x]
    everywhere, and a grey annotation that marks every cell. *)
Definition uniform_reference (T : Type) (x : T) (count width : nat)
  : rasterio.dataset T :=
  rasterio.Dataset count 1 width (nseq (count * width) x).

Definition full_annotation (width : nat) : rasterio.dataset int :=
  rasterio.Dataset 1 1 width (nseq width 255).

(** A reference of two bands whose first band holds [x1] in its first cell
    and [x0] everywhere else. *)
Definition spike_reference (T : Type) (x1 x0 : T) (width : nat)
  : rasterio.dataset T :=
  rasterio.Dataset 2 1 width (x1 :: nseq width.-1 x0 ++ nseq width x0).

Section Models.

Variable R : rcfType.

(** Four annotated pixels of a two-band reference, both bands selected. *)
Definition reference_2x4 : rasterio.dataset R :=
  rasterio.Dataset 2 1 4 [:: 1; -1; 1; -1; 1; 1; -1; -1].

Definition values_2x4 : np.ndarray R :=
  np.NdArray [:: 2; 4]%N [:: 1; -1; 1; -1; 1; 1; -1; -1].

Definition sampler_2x4 : ReferencePixels.t R :=
  ReferencePixels.set_values
    (ReferencePixels.loaded
       (ReferencePixels.Make reference_2x4 (full_annotation 4)
          (Some [:: 0; 1]) np.zeros0 np.zeros0 np.zeros0))
    values_2x4.

Definition unfitted_2x4 : MahalanobisDistance.t R :=
  MahalanobisDistance.Make sampler_2x4 (Some [:: 0; 1]) None None.

(** Two images of two bands on a one by two grid that differ only in
    their second cell, and an image with a single band. *)
Definition image_a : np.ndarray R :=
  np.NdArray [:: 2; 1; 2]%N [:: 3; 4; 5; 6].

Definition image_b : np.ndarray R :=
  np.NdArray [:: 2; 1; 2]%N [:: 3; 9; 5; 8].

Definition image_one_band : np.ndarray R :=
  np.NdArray [:: 1; 1; 2]%N [:: 3; 4].

(** A stand-in for the log-density of a mixture, and mixture models before
    and after fitting. *)
Definition toy_log_prob (g : mixture.GaussianMixture R) (x : seq R) : R :=
  - \sum_(v <- x) v ^+ 2.

Definition toy_mixture : mixture.GaussianMixture R :=
  mixture.Fitted 1 2 (np.NdArray [:: 1%N] [:: 1])
    (np.NdArray [:: 1; 2]%N [:: 0; 0])
    (np.NdArray [:: 1; 2; 2]%N [:: 1; 0; 0; 1]).

Definition unfitted_mixture : GaussianMixtureModelDistance.t R :=
  GaussianMixtureModelDistance.Make sampler_2x4 (Some [:: 0; 1]) 1
    None None None.

Definition fitted_mixture : GaussianMixtureModelDistance.t R :=
  GaussianMixtureModelDistance.Make sampler_2x4 (Some [:: 0; 1]) 1
    (Some toy_mixture) (Some (mixture.means_ toy_mixture))
    (Some (mixture.covariances_ toy_mixture)).

End Models.

End Examples.

(** * Properties *)

(** ** Flat sequences and raster positions *)

Section FlatLemmas.

Variable T : Type.

Lemma ltn_raster (h w r c : nat) :
  (r < h)%N -> (c < w)%N -> (r * w + c < h * w)%N.
Proof.
move=> ltrh ltcw.
have /leq_trans -> //: (r * w + c < r.+1 * w)%N by rewrite mulSn addnC ltn_add2r.
by rewrite leq_mul2r ltrh orbT.
Qed.

Lemma raster_divmod (q w p : nat) :
  (p < q * w)%N -> ((p %/ w < q) && (p %% w < w))%N.
Proof.
case: w => [|w]; first by rewrite muln0.
by move=> ltp; rewrite ltn_divLR // ltp ltn_pmod.
Qed.

Lemma nth_slice0 (x0 : T) (a : np.ndarray T) (b p : nat) :
  (p < np.inner a)%N ->
  nth x0 (np.slice0 a b) p = nth x0 (np.flat a) (b * np.inner a + p).
Proof. by move=> ltp; rewrite /np.slice0 nth_take // nth_drop. Qed.

Lemma size_slice0 (a : np.ndarray T) (n b : nat) (sh : seq nat) :
  np.well_formed a -> np.shape a = n :: sh -> (b < n)%N ->
  size (np.slice0 a b) = np.numel sh.
Proof.
rewrite /np.well_formed /np.slice0 /np.inner => /eqP sz sha ltbn.
rewrite size_take size_drop sz sha /= -mulnBl.
case: ltnP => // le_k; apply/eqP; rewrite eqn_leq le_k /=.
by rewrite leq_pmull // subn_gt0.
Qed.

(** Chunks of one length laid end to end. *)
Lemma nth_flatten_chunks (x0 : T) (n : nat) (ss : seq (seq T)) (i p : nat) :
  all (fun s => size s == n) ss -> (p < n)%N ->
  nth x0 (flatten ss) (i * n + p) = nth x0 (nth [::] ss i) p.
Proof.
elim: ss i => [|s ss IH] [|i] //=.
- by rewrite !nth_nil.
- by case/andP=> /eqP szs _ ltp; rewrite add0n nth_cat szs ltp.
- case/andP=> /eqP szs alls ltp.
  rewrite nth_cat szs mulSn -addnA ltnNge leq_addr /=.
  by rewrite addKn IH.
Qed.

Lemma slice0_flatten_chunks (n : nat) (ss : seq (seq T)) (sh : seq nat)
    (i : nat) :
  all (fun s => size s == n) ss -> (i < size ss)%N ->
  take n (drop (i * n) (flatten ss)) = nth [::] ss i.
Proof.
elim: ss i => [|s ss IH] [|i] //=.
- by case/andP=> /eqP szs _ _; rewrite mul0n drop0 take_size_cat.
- case/andP=> /eqP szs alls; rewrite ltnS => lti.
  by rewrite mulSn drop_cat szs ltnNge leq_addr /= addKn IH.
Qed.

Lemma size_flatten_chunks (n : nat) (ss : seq (seq T)) :
  all (fun s => size s == n) ss -> size (flatten ss) = (size ss * n)%N.
Proof.
elim: ss => //= s ss IH /andP[/eqP szs /IH szss].
by rewrite size_cat szs szss mulSn.
Qed.

Lemma normalize_index_lt (n : nat) (i : int) (k : nat) :
  np.normalize_index n i = Some k -> (k < n)%N.
Proof.
case: i => j /=; case: ifP => // ltjn [<-] //.
by rewrite ltn_subrL /= (leq_ltn_trans _ ltjn).
Qed.

Lemma normalize_indicesP (n : nat) (idx : seq int) (ks : seq nat) :
  np.normalize_indices n idx = Some ks ->
  size ks = size idx /\ all (fun k => k < n)%N ks.
Proof.
elim: idx ks => [|i idx IH] ks /=; first by case=> <-.
case E: (np.normalize_index n i) => [k|] //.
case E': (np.normalize_indices n idx) => [ks'|] //= [<-] /=.
have [-> ->] := IH _ E'.
by rewrite (normalize_index_lt E).
Qed.

End FlatLemmas.

Lemma true_cells_filter (m : bitseq) :
  true_cells m = [seq p <- iota 0 (size m) | nth false m p].
Proof.
by rewrite /true_cells filter_mask -/(mkseq _ _) mkseq_nth.
Qed.

Lemma size_true_cells (m : bitseq) : size (true_cells m) = count id m.
Proof. by rewrite /true_cells size_mask // size_iota. Qed.

Lemma true_cells_sorted (m : bitseq) : sorted ltn (true_cells m).
Proof.
by rewrite true_cells_filter sorted_filter ?iota_ltn_sorted //; apply: ltn_trans.
Qed.

Lemma true_cellsP (m : bitseq) (k : nat) :
  (k < count id m)%N ->
  (nth 0%N (true_cells m) k < size m)%N /\
  nth false m (nth 0%N (true_cells m) k).
Proof.
rewrite -size_true_cells => /(mem_nth 0%N).
by rewrite true_cells_filter mem_filter mem_iota add0n /= => /andP[-> ->].
Qed.

Lemma nth_mask_true_cells (T : Type) (x0 : T) (m : bitseq) (s : seq T)
    (k : nat) :
  size s = size m -> (k < count id m)%N ->
  nth x0 (mask m s) k = nth x0 s (nth 0%N (true_cells m) k).
Proof.
move=> szs ltk; rewrite nth_mask ?szs // /mindex; congr (nth x0 s _).
by apply: set_nth_default; rewrite -/(true_cells m) size_true_cells.
Qed.

(** ** The reference pixel sampler *)

Section Sampler.

Variable T : Type.

Implicit Types (self : ReferencePixels.t T) (lo hi : int * int * int).

Lemma where_eq_255 (c : np.ndarray bool) :
  np.eq_ (np.where_ c 255 0) 255 = c.
Proof.
case: c => sh fl; rewrite /np.eq_ /np.where_ /np.map1 /= -map_comp.
by congr np.NdArray; rewrite -[RHS]map_id; apply: eq_map => -[].
Qed.

(** On a one-band annotation the foreground is the comparison with 127. *)
Lemma foreground_grey lo hi self (h w : nat) :
  np.shape (ReferencePixels.mask self) = [:: 1%N; h; w] ->
  ReferencePixels.foreground lo hi self
  = Ok (np.gt (np.plane (ReferencePixels.mask self) 0) 127).
Proof.
rewrite /ReferencePixels.foreground /ReferencePixels.pixel_mask.
by rewrite /np.shape_at /np.ndim => -> /=; rewrite where_eq_255.
Qed.

(** On a three- or four-band annotation it is the conjunction of the six
    comparisons. *)
Lemma foreground_rgb lo hi self (n h w : nat) :
  np.shape (ReferencePixels.mask self) = [:: n; h; w] ->
  (n == 3%N) || (n == 4%N) ->
  let m := ReferencePixels.mask self in
  ReferencePixels.foreground lo hi self
  = Ok (np.and_ (np.gt (np.plane m 0) lo.1.1)
       (np.and_ (np.lt (np.plane m 0) hi.1.1)
       (np.and_ (np.gt (np.plane m 1) lo.1.2)
       (np.and_ (np.lt (np.plane m 1) hi.1.2)
       (np.and_ (np.gt (np.plane m 2) lo.2)
                (np.lt (np.plane m 2) hi.2)))))).
Proof.
rewrite /ReferencePixels.foreground /ReferencePixels.pixel_mask.
by rewrite /np.shape_at /np.ndim => -> /= -> /=; rewrite where_eq_255.
Qed.

(** Whenever the foreground exists it is a grid of the extent of the
    annotation. *)
Lemma foreground_shape lo hi self (n h w : nat) (fg : np.ndarray bool) :
  np.well_formed (ReferencePixels.mask self) ->
  np.shape (ReferencePixels.mask self) = [:: n; h; w] ->
  ReferencePixels.foreground lo hi self = Ok fg ->
  np.shape fg = [:: h; w] /\ size (np.flat fg) = (h * w)%N.
Proof.
move=> wf sh.
have szp b : (b < n)%N ->
    size (np.slice0 (ReferencePixels.mask self) b) = (h * w)%N.
  by move=> ltb; rewrite (size_slice0 wf sh ltb) /= muln1.
have [n34|] := boolP ((n == 3%N) || (n == 4%N)).
  rewrite (foreground_rgb lo hi sh n34) => -[<-] /=.
  rewrite sh /= !(size_map, size_zip) !szp ?minnn //.
  - by case/orP: n34 => /eqP ->.
  - by case/orP: n34 => /eqP ->.
  - by case/orP: n34 => /eqP ->.
move=> n34; have [/eqP n1|nn1] := boolP (n == 1%N).
  move: sh szp; rewrite n1 => sh szp.
  by rewrite (foreground_grey lo hi sh) => -[<-] /=; rewrite sh size_map szp.
rewrite /ReferencePixels.foreground /ReferencePixels.pixel_mask.
by rewrite /np.shape_at /np.ndim sh /= (negbTE n34) (negbTE nn1).
Qed.

(** What a successful [generate_pixel_mask] has stored. *)
Lemma generate_pixel_maskP lo hi self self' (nb h w n hm wm : nat)
    (bands : seq int) :
  np.well_formed (ReferencePixels.reference_image self) ->
  np.shape (ReferencePixels.reference_image self) = [:: nb; h; w] ->
  np.well_formed (ReferencePixels.mask self) ->
  np.shape (ReferencePixels.mask self) = [:: n; hm; wm] ->
  ReferencePixels.bands_to_use self = Some bands ->
  ReferencePixels.generate_pixel_mask lo hi self = Ok self' ->
  exists fg ks,
    [/\ ReferencePixels.foreground lo hi self = Ok fg,
        np.shape fg = [:: h; w] /\ size (np.flat fg) = (h * w)%N,
        np.normalize_indices nb bands = Some ks
      & self' = ReferencePixels.set_values self
          (np.NdArray [:: size bands; count id (np.flat fg)]
             (flatten [seq mask (np.flat fg)
                         (np.slice0 (ReferencePixels.reference_image self) k)
                      | k <- ks]))].
Proof.
move=> wfa sha wfm shm bs; rewrite /ReferencePixels.generate_pixel_mask.
case Efg: (ReferencePixels.foreground lo hi self) => [fg|e] //=.
have [shfg szfg] := foreground_shape wfm shm Efg.
rewrite /np.take_mask sha shfg.
case: ifP => // /andP[/eqP eh /eqP ew] /=.
rewrite bs /np.take0 /np.ndim /=.
case Eks: (np.normalize_indices nb bands) => [ks|] //= [<-].
exists fg, ks; split=> //; first by rewrite eh ew.
congr ReferencePixels.set_values; congr np.NdArray; congr flatten.
have [_ /allP ltks] := normalize_indicesP Eks.
have szm b : (b < nb)%N ->
    size (mask (np.flat fg)
            (np.slice0 (ReferencePixels.reference_image self) b))
    = count id (np.flat fg).
  move=> ltb; rewrite size_mask // szfg (size_slice0 wfa sha ltb) /= muln1.
  by rewrite eh ew.
apply/eq_in_map => k /ltks ltk.
rewrite {1}/np.slice0 /np.inner /= muln1.
rewrite (@slice0_flatten_chunks _ _ _ [::]) ?size_map ?size_iota //.
  rewrite all_map; apply/allP => b; rewrite mem_iota add0n /= => ltb.
  by rewrite szm.
by rewrite (nth_map 0%N) ?size_iota // nth_iota.
Qed.

Lemma normalize_indices_nth (n : nat) (idx : seq int) (ks : seq nat)
    (i : nat) :
  np.normalize_indices n idx = Some ks -> (i < size idx)%N ->
  np.normalize_index n (nth 0 idx i) = Some (nth 0%N ks i).
Proof.
elim: idx ks i => [|j idx IH] ks i //=.
case E: (np.normalize_index n j) => [k|] //.
case E': (np.normalize_indices n idx) => [ks'|] //= [<-].
by case: i => [|i] //=; rewrite ltnS; apply: IH.
Qed.

(** C7. The sample extracted by [generate_pixel_mask] has one row per
    selected band and one column per foreground cell: its shape is
    [(B, N)] with [B] the length of the band selection and [N] the number
    of true cells of the mask; the element in row [i] and column [k] is the
    value of the [i]-th selected band at the [k]-th true cell of the mask,
    counted in raster (row-major) order. *)
Theorem sample_layout (x0 : T) lo hi self self' (nb h w n hm wm : nat)
    (bands : seq int) :
  np.well_formed (ReferencePixels.reference_image self) ->
  np.shape (ReferencePixels.reference_image self) = [:: nb; h; w] ->
  np.well_formed (ReferencePixels.mask self) ->
  np.shape (ReferencePixels.mask self) = [:: n; hm; wm] ->
  ReferencePixels.bands_to_use self = Some bands ->
  ReferencePixels.generate_pixel_mask lo hi self = Ok self' ->
  exists fg ks,
    [/\ ReferencePixels.foreground lo hi self = Ok fg,
        np.shape (ReferencePixels.values self')
        = [:: size bands; count id (np.flat fg)],
        forall i, (i < size bands)%N ->
          np.normalize_index nb (nth 0 bands i) = Some (nth 0%N ks i),
        sorted ltn (true_cells (np.flat fg))
      & forall i k, (i < size bands)%N -> (k < count id (np.flat fg))%N ->
          let pos := nth 0%N (true_cells (np.flat fg)) k in
          np.item2 false fg (pos %/ w) (pos %% w) = true /\
          np.item2 x0 (ReferencePixels.values self') i k
          = np.item3 x0 (ReferencePixels.reference_image self)
              (nth 0%N ks i) (pos %/ w) (pos %% w)].
Proof.
move=> wfa sha wfm shm bs gen.
have [fg [ks [Efg [shfg szfg] Eks ->]]] :=
  generate_pixel_maskP wfa sha wfm shm bs gen.
have [szks /allP ltks] := normalize_indicesP Eks.
exists fg, ks; split=> //.
- by move=> i lti; apply: normalize_indices_nth.
- exact: true_cells_sorted.
move=> i k lti ltk pos.
have [ltpos fgpos] := true_cellsP ltk.
rewrite /np.item2 /np.item3 /= shfg sha /= -divn_eq; split=> //.
have ltki : (nth 0%N ks i < nb)%N by apply/ltks/mem_nth; rewrite szks.
have szsl b : (b < nb)%N ->
    size (np.slice0 (ReferencePixels.reference_image self) b) = (h * w)%N.
  by move=> ltb; rewrite (size_slice0 wfa sha ltb) /= muln1.
rewrite nth_flatten_chunks //.
  rewrite all_map; apply/allP => b /ltks ltb /=.
  by rewrite size_mask ?szfg ?szsl.
rewrite (nth_map 0%N) ?szks // nth_mask_true_cells ?szsl ?szfg //.
rewrite nth_slice0 /np.inner sha /= ?muln1 -?szfg //.
by rewrite -/pos mulnDl -mulnA -addnA -divn_eq szfg.
Qed.

(** C6. On a one-band annotation image the foreground cells are exactly
    those whose value is strictly greater than 127; a value of 127 is
    background and a value of 128 is foreground. *)
Theorem grey_mask_threshold lo hi self (h w : nat) :
  np.well_formed (ReferencePixels.mask self) ->
  np.shape (ReferencePixels.mask self) = [:: 1%N; h; w] ->
  exists fg,
    [/\ ReferencePixels.foreground lo hi self = Ok fg,
        np.shape fg = [:: h; w]
      & forall r c, (r < h)%N -> (c < w)%N ->
          let v := np.item3 0 (ReferencePixels.mask self) 0 r c in
          [/\ np.item2 false fg r c = (127 < v),
              v = 127 -> np.item2 false fg r c = false
            & v = 128 -> np.item2 false fg r c = true]].
Proof.
move=> wf sh; exists (np.gt (np.plane (ReferencePixels.mask self) 0) 127).
rewrite (foreground_grey lo hi sh) /= sh; split=> // r c ltr ltc.
set v := np.item3 _ _ _ _ _.
have E : np.item2 false
           (np.gt (np.plane (ReferencePixels.mask self) 0) 127) r c
         = (127 < v).
  rewrite /v /np.item2 /np.item3 /= sh /= mul0n add0n.
  have ltp := ltn_raster ltr ltc.
  have szp : size (np.slice0 (ReferencePixels.mask self) 0) = (h * w)%N.
    by rewrite (size_slice0 wf sh) //= muln1.
  rewrite (nth_map 0) ?szp // nth_slice0 /np.inner sh /= ?muln1 //.
by split=> //; rewrite E => ->.
Qed.

Lemma range_pred (n : nat) :
  range (Posz n - 1) = [seq Posz i | i <- iota 0 n.-1].
Proof. by case: n => [|n] //=; rewrite subn1. Qed.

Lemma generate_pixel_mask_shape lo hi self self' (bands : seq int) :
  ReferencePixels.bands_to_use self = Some bands ->
  ReferencePixels.generate_pixel_mask lo hi self = Ok self' ->
  ReferencePixels.bands_to_use self' = Some bands /\
  exists fg,
    ReferencePixels.foreground lo hi self = Ok fg /\
    np.shape (ReferencePixels.values self')
    = [:: size bands; count id (np.flat fg)].
Proof.
move=> bs; rewrite /ReferencePixels.generate_pixel_mask.
case: (ReferencePixels.foreground lo hi self) => [fg|e] //=.
case E: (np.take_mask _ fg) => [v|e] //=; rewrite bs /np.take0.
case: ifP => // _; case: (np.normalize_indices _ _) => [ks|] //= [<-] /=.
split=> //; exists fg; split=> //.
move: E; rewrite /np.take_mask.
case: (np.shape _) => [|? [|? [|? [|? ?]]]] //.
case: (np.shape fg) => [|? [|? [|? ?]]] //.
by case: ifP => // _ [<-].
Qed.

Lemma show_statistics_of_pixel_maskP self self' :
  ReferencePixels.show_statistics_of_pixel_mask self = Ok self' ->
  self' = self /\ (100 < nth 0%N (np.shape (ReferencePixels.values self)) 1)%N.
Proof.
rewrite /ReferencePixels.show_statistics_of_pixel_mask /np.shape_at.
case: ifP => //= _; rewrite /ReferencePixels.min_annotated_pixels.
by case: leqP => // lt100 [<-].
Qed.

(** C5. Without a band selection [initialize] behaves exactly as with the
    selection [range(count - 1)], the indices of all bands but the last in
    ascending order; a successfully built object stores this selection and
    a sample with [count - 1] rows; for a four-band reference image the
    selection is [(0, 1, 2)]. *)
Theorem default_band_selection (reference : rasterio.dataset T)
    (annotated : rasterio.dataset int) :
  let bands := [seq Posz i | i <- iota 0 (rasterio.count reference).-1] in
  [/\ ReferencePixels.init reference annotated None
      = ReferencePixels.init reference annotated (Some bands),
      forall self, ReferencePixels.init reference annotated None = Ok self ->
        ReferencePixels.bands_to_use self = Some bands /\
        exists N, np.shape (ReferencePixels.values self)
                  = [:: (rasterio.count reference).-1; N]
    & rasterio.count reference = 4%N -> bands = [:: 0; 1; 2]].
Proof.
move=> bands.
have E : ReferencePixels.init reference annotated None
         = ReferencePixels.init reference annotated (Some bands).
  rewrite /ReferencePixels.init /ReferencePixels.initialize.
  by rewrite /ReferencePixels.loaded /= range_pred.
split=> // [self|]; last by rewrite /bands => ->.
rewrite E /ReferencePixels.init /ReferencePixels.initialize.
case G: (ReferencePixels.generate_pixel_mask _ _ _) => [self1|e] //=.
case/show_statistics_of_pixel_maskP=> -> _.
have [|-> [fg [_ ->]]] := @generate_pixel_mask_shape _ _ _ _ bands _ G.
  by [].
by split=> //; exists (count id (np.flat fg)); rewrite size_map size_iota.
Qed.

End Sampler.

(** ** Arrays built from an index function *)

Section Mk2.

Variable R : rcfType.

Implicit Types (f g : nat -> nat -> R) (a : np.ndarray R).

Lemma mkseq_in_eq (A : Type) (f g : nat -> A) (n : nat) :
  (forall k, (k < n)%N -> f k = g k) -> mkseq f n = mkseq g n.
Proof.
by move=> fg; apply/eq_in_map => k; rewrite mem_iota add0n; apply: fg.
Qed.

Lemma size_mk2 (m n : nat) f : size (np.flat (np.mk2 m n f)) = (m * n)%N.
Proof. by rewrite /= size_mkseq. Qed.

Lemma nth_mk2 (m n : nat) f (i j : nat) :
  (i < m)%N -> (j < n)%N -> nth 0 (np.flat (np.mk2 m n f)) (i * n + j) = f i j.
Proof.
move=> lti ltj; rewrite /= nth_mkseq ?ltn_raster //.
have n_gt0 : (0 < n)%N by apply: leq_ltn_trans ltj.
by rewrite divnMDl // divn_small // addn0 modnMDl modn_small.
Qed.

Lemma at2_mk2 (m n : nat) f (i j : nat) :
  (i < m)%N -> (j < n)%N -> np.at2 (np.mk2 m n f) i j = f i j.
Proof. by move=> lti ltj; rewrite /np.at2 /np.ncols /= nth_mk2. Qed.

Lemma eq_mk2 (m n : nat) f g :
  (forall i j, (i < m)%N -> (j < n)%N -> f i j = g i j) ->
  np.mk2 m n f = np.mk2 m n g.
Proof.
move=> fg; congr np.NdArray; apply: mkseq_in_eq => k ltk.
by have /andP[? ?] := raster_divmod ltk; apply: fg.
Qed.

Lemma map2_mk2 (op : R -> R -> R) (m n : nat) f g :
  np.map2 op (np.mk2 m n f) (np.mk2 m n g)
  = np.mk2 m n (fun i j => op (f i j) (g i j)).
Proof. by rewrite /np.map2 /np.mk2 /= /mkseq zip_map -map_comp. Qed.

Lemma entryE (m n : nat) (A : 'M[R]_(m, n)) (i : 'I_m) (j : 'I_n) :
  np.entry A i j = A i j.
Proof.
rewrite /np.entry; case: insubP => [i' _ /val_inj ->|]; last by rewrite ltn_ord.
by case: insubP => [j' _ /val_inj ->|]; last by rewrite ltn_ord.
Qed.

Lemma to_mxE (m n : nat) a (i : 'I_m) (j : 'I_n) :
  np.shape a = [:: m; n] -> np.to_mx m n a i j = np.at2 a i j.
Proof. by move=> sh; rewrite mxE /np.at2 /np.ncols sh. Qed.

End Mk2.

(** ** Scoring with the unimodal model *)

Section Scoring.

Variable R : rcfType.

Implicit Types (image : np.ndarray R) (self : MahalanobisDistance.t R).

(** The array [pixels] of a three-dimensional image: row [p] holds the
    values of the selected bands at the cell with raster position [p]. *)
Lemma pixels_ofP (bands : seq int) image (nb h w : nat) (ks : seq nat) :
  np.well_formed image -> np.shape image = [:: nb; h; w] ->
  np.normalize_indices nb bands = Some ks -> (0 < size bands)%N ->
  BaseDistance.pixels_of (Some bands) image
  = Ok (np.mk2 (h * w) (size bands)
          (fun p i => nth 0 (np.flat image) (nth 0%N ks i * (h * w) + p))).
Proof.
move=> wf sh Eks B_gt0.
have [szks /allP ltks] := normalize_indicesP Eks.
have szsl k : (k < nb)%N -> size (np.slice0 image k) = (h * w)%N.
  by move=> ltk; rewrite (size_slice0 wf sh ltk) /= muln1.
have chunks : all (fun s => size s == (h * w)%N)
                  [seq np.slice0 image k | k <- ks].
  by rewrite all_map; apply/allP => k /ltks ltk /=; rewrite szsl.
rewrite /BaseDistance.pixels_of /= /np.take0 /np.ndim sh /= Eks /=.
rewrite /np.reshape_rows /= (size_flatten_chunks chunks) size_map szks.
rewrite dvdn_mulr // orbF eqn0Ngt B_gt0 /= mulKn //.
congr Ok; rewrite /np.transpose /np.nrows /np.ncols /=.
apply: eq_mk2 => p i ltp lti; rewrite /np.at2 /np.ncols /=.
rewrite nth_flatten_chunks // (nth_map 0%N) ?szks //.
by rewrite nth_slice0 /np.inner sh /= muln1.
Qed.

Lemma item3_raster image (nb h w b p : nat) :
  np.shape image = [:: nb; h; w] ->
  np.item3 0 image b (p %/ w) (p %% w)
  = nth 0 (np.flat image) (b * (h * w) + p).
Proof.
by move=> sh; rewrite /np.item3 sh /= mulnDl -mulnA -addnA -divn_eq.
Qed.

Lemma item3_flat image (nb h w b r c : nat) :
  np.shape image = [:: nb; h; w] ->
  np.item3 0 image b r c = nth 0 (np.flat image) (b * (h * w) + (r * w + c)).
Proof. by move=> sh; rewrite /np.item3 sh /= mulnDl -mulnA addnA. Qed.

(** The array [distance] before the square root: for every cell, the
    quadratic form of its pixel vector. *)
Lemma squared_distanceP self image (bands : seq int) (ks : seq nat)
    (cov avg : np.ndarray R) (nb h w B : nat) :
  MahalanobisDistance.bands_to_use self = Some bands ->
  size bands = B -> (0 < B)%N ->
  MahalanobisDistance.covariance self = Some cov ->
  MahalanobisDistance.average self = Some avg ->
  np.shape cov = [:: B; B] -> np.shape avg = [:: B] ->
  np.to_mx B B cov \in unitmx ->
  np.well_formed image -> np.shape image = [:: nb; h; w] ->
  np.normalize_indices nb bands = Some ks ->
  MahalanobisDistance.squared_distance self image
  = Ok (np.NdArray [:: (h * w)%N]
         (mkseq (fun p => quadratic_form (np.to_mx B B cov)
                            (mean_vector B avg)
                            (pixel_vector B image ks (p %/ w) (p %% w)))
                (h * w))).
Proof.
move=> Hb szb B_gt0 Hc Ha shc sha unitS wf sh Eks.
rewrite /MahalanobisDistance.squared_distance Hb.
rewrite (pixels_ofP wf sh Eks) ?szb //= Hc /=.
rewrite /np.linalg_inv shc eqxx /= unitS /= Ha /=.
set P := (h * w)%N; set A := invmx _.
set X := fun p i => nth 0 (np.flat image) (nth 0%N ks i * P + p).
pose D p i := X p i - np.at1 avg i.
have -> : np.sub_rows (np.mk2 P B X) avg = Ok (np.mk2 P B D).
  rewrite /np.sub_rows /np.ncols /np.nrows /= sha /= eqxx /= maxnn.
  congr Ok; apply: eq_mk2 => p i ltp lti.
  rewrite /D; case: eqP => [B1|_]; last by rewrite at2_mk2.
  by move: lti; rewrite B1 ltnS leqn0 => /eqP ->; rewrite at2_mk2 ?B1.
rewrite /= /np.matmul /np.ncols /np.nrows /= eqxx /=.
rewrite /np.multiply /= eqxx /= map2_mk2 /np.sum_axis1 /np.nrows /np.ncols /=.
congr Ok; congr np.NdArray; apply: mkseq_in_eq => p ltp.
rewrite big_mkord /quadratic_form mxE; apply: eq_bigr => i _.
rewrite at2_mk2 // big_mkord !mxE mulrC.
have Dp (k : 'I_B) :
    np.item3 0 image (nth 0%N ks k) (p %/ w) (p %% w) - np.at1 avg k = D p k.
  by rewrite (item3_raster _ _ sh).
rewrite Dp; congr (_ * _); apply: eq_bigr => k _.
by rewrite !mxE Dp at2_mk2 // /np.at2 /np.ncols /= nth_mk2 // entryE.
Qed.

(** The distance image, for any stored covariance and mean of the right
    shape. *)
Lemma calculate_distanceP self image (bands : seq int) (ks : seq nat)
    (cov avg : np.ndarray R) (nb h w B : nat) :
  MahalanobisDistance.bands_to_use self = Some bands ->
  size bands = B -> (0 < B)%N ->
  MahalanobisDistance.covariance self = Some cov ->
  MahalanobisDistance.average self = Some avg ->
  np.shape cov = [:: B; B] -> np.shape avg = [:: B] ->
  np.to_mx B B cov \in unitmx ->
  np.well_formed image -> np.shape image = [:: nb; h; w] ->
  np.normalize_indices nb bands = Some ks ->
  MahalanobisDistance.calculate_distance self image
  = Ok (np.NdArray [:: 1%N; h; w]
         (mkseq (fun p => mahalanobis (np.to_mx B B cov)
                            (mean_vector B avg)
                            (pixel_vector B image ks (p %/ w) (p %% w)))
                (h * w))).
Proof.
move=> Hb szb B_gt0 Hc Ha shc sha unitS wf sh Eks.
rewrite /MahalanobisDistance.calculate_distance.
rewrite (squared_distanceP Hb szb B_gt0 Hc Ha shc sha unitS wf sh Eks) /=.
rewrite /np.shape_at /np.ndim sh /= /np.reshape /= size_map size_mkseq.
by rewrite mul1n muln1 eqxx /mkseq -map_comp.
Qed.

Lemma item3_out (F : nat -> R) (h w r c : nat) :
  (r < h)%N -> (c < w)%N ->
  np.item3 0 (np.NdArray [:: 1%N; h; w] (mkseq F (h * w))) 0 r c
  = F (r * w + c)%N.
Proof.
by move=> ltr ltc; rewrite /np.item3 /= mul0n add0n nth_mkseq ?ltn_raster.
Qed.

Lemma raster_div (w r c : nat) : (c < w)%N -> ((r * w + c) %/ w)%N = r.
Proof.
move=> ltc; have w_gt0 : (0 < w)%N by apply: leq_ltn_trans ltc.
by rewrite divnMDl // divn_small // addn0.
Qed.

Lemma raster_mod (w r c : nat) : (c < w)%N -> ((r * w + c) %% w)%N = c.
Proof. by move=> ltc; rewrite modnMDl modn_small. Qed.

(** The attributes [calculate_statistics] stores for a sample of at least
    two bands. *)
Lemma shape_cov (values : np.ndarray R) (B N : nat) :
  np.shape values = [:: B; N] -> (1 < B)%N ->
  np.shape (np.cov values) = [:: B; B].
Proof.
move=> sh B_gt1; rewrite /np.cov /np.nrows sh /=.
have -> /= : (B == 0%N) = false by case: B B_gt1 {sh}.
by have -> : (B != 1%N) by case: B B_gt1 {sh} => [|[|B]].
Qed.

Lemma shape_average (values : np.ndarray R) (B N : nat) :
  np.shape values = [:: B; N] ->
  np.shape (np.mean_axis1 values) = [:: B].
Proof. by move=> sh; rewrite /np.mean_axis1 /np.nrows sh. Qed.

(** [calculate_statistics] succeeds exactly on a sample with at least one
    row. *)
Lemma average_axis1E (values : np.ndarray R) :
  np.average_axis1 values
  = if np.nrows values == 0%N then Raise ZeroDivisionError
    else Ok (np.mean_axis1 values).
Proof. by rewrite /np.average_axis1 /= muln1. Qed.

Lemma calculate_statisticsE (self0 : MahalanobisDistance.t R) :
  MahalanobisDistance.calculate_statistics self0
  = if np.nrows (ReferencePixels.values
                   (MahalanobisDistance.reference_pixels self0)) == 0%N
    then Raise ZeroDivisionError else Ok (with_statistics self0).
Proof.
rewrite /MahalanobisDistance.calculate_statistics average_axis1E.
by case: ifP.
Qed.

Lemma calculate_statisticsP (self0 self : MahalanobisDistance.t R) :
  MahalanobisDistance.calculate_statistics self0 = Ok self ->
  self = with_statistics self0.
Proof. by rewrite calculate_statisticsE; case: ifP => // _ [<-]. Qed.

Lemma calculate_statistics_ok (self0 : MahalanobisDistance.t R)
    (B N : nat) :
  np.shape (ReferencePixels.values
              (MahalanobisDistance.reference_pixels self0)) = [:: B; N] ->
  (0 < B)%N ->
  MahalanobisDistance.calculate_statistics self0
  = Ok (with_statistics self0).
Proof.
move=> shv B_gt0; rewrite calculate_statisticsE /np.nrows shv /=.
by rewrite eqn0Ngt B_gt0.
Qed.

(** The distance formula for at least two selected bands, in the
    idealisation (exact arithmetic).  For a model
    fitted on a sample of [B >= 2] bands whose covariance matrix [S] is
    invertible, and a three-dimensional image that has all the selected
    bands, [calculate_distance] returns an array of shape
    [(1, rows, cols)] whose value at the cell [(r, c)] is
    [sqrt((x - m)^T S^-1 (x - m))], where [x] holds the values of the
    selected bands at [(r, c)] in selection order and [m] is the fitted
    mean. *)
Lemma mahalanobis_distance_formula (self0 : MahalanobisDistance.t R) image
    (bands : seq int) (ks : seq nat) (nb h w B N : nat) :
  let values :=
    ReferencePixels.values (MahalanobisDistance.reference_pixels self0) in
  let self := with_statistics self0 in
  let S := np.to_mx B B (np.cov values) in
  let m := mean_vector B (np.mean_axis1 values) in
  MahalanobisDistance.bands_to_use self0 = Some bands ->
  size bands = B -> (1 < B)%N ->
  np.shape values = [:: B; N] ->
  S \in unitmx ->
  np.well_formed image -> np.shape image = [:: nb; h; w] ->
  np.normalize_indices nb bands = Some ks ->
  exists out,
    [/\ MahalanobisDistance.calculate_distance self image = Ok out,
        np.shape out = [:: 1%N; h; w],
        np.well_formed out
      & forall r c, (r < h)%N -> (c < w)%N ->
          np.item3 0 out 0 r c
          = mahalanobis S m (pixel_vector B image ks r c)].
Proof.
move=> values self S m Hb szb B_gt1 shv unitS wf sh Eks.
have B_gt0 : (0 < B)%N by apply: ltnW.
eexists; split.
- exact: (@calculate_distanceP self image bands ks _ _ nb h w B Hb szb B_gt0
            (erefl _) (erefl _) (shape_cov shv B_gt1) (shape_average shv)
            unitS wf sh Eks).
- by [].
- by rewrite /np.well_formed /= size_mkseq mul1n muln1.
- by move=> r c ltr ltc; rewrite item3_out // raster_div // raster_mod.
Qed.

(** A model fitted on a single band cannot score: [np.cov] squeezes the
    one by one covariance to a zero-dimensional array, which
    [np.linalg.inv] rejects. *)
Lemma single_band_fails (self0 : MahalanobisDistance.t R) image
    (bands : seq int) (N : nat) :
  MahalanobisDistance.bands_to_use self0 = Some bands ->
  np.shape (ReferencePixels.values
              (MahalanobisDistance.reference_pixels self0)) = [:: 1%N; N] ->
  is_ok (BaseDistance.pixels_of (Some bands) image) ->
  MahalanobisDistance.calculate_distance
    (with_statistics self0) image
  = Raise LinAlgError.
Proof.
move=> Hb shv; rewrite /MahalanobisDistance.calculate_distance.
rewrite /MahalanobisDistance.squared_distance /= Hb.
case: (BaseDistance.pixels_of _ _) => [px|e] //= _.
by rewrite /np.linalg_inv /np.cov /np.nrows shv.
Qed.

(** Without a selected band the image cannot even be laid out as
    [pixels]. *)
Lemma no_band_fails self image :
  MahalanobisDistance.bands_to_use self = Some [::] ->
  (2 < np.ndim image)%N ->
  MahalanobisDistance.calculate_distance self image = Raise ValueError.
Proof.
move=> Hb nd; rewrite /MahalanobisDistance.calculate_distance.
rewrite /MahalanobisDistance.squared_distance Hb.
by rewrite /BaseDistance.pixels_of /= /np.take0 ltnNge nd.
Qed.

(** *** The mean of a row *)

Lemma at1_average (values : np.ndarray R) (B N i : nat) :
  np.shape values = [:: B; N] -> (i < B)%N ->
  np.at1 (np.mean_axis1 values) i
  = (\sum_(0 <= k < N) np.at2 values i k) / N%:R.
Proof.
by move=> sh lti; rewrite /np.at1 /np.mean_axis1 /np.nrows /np.ncols sh /=
  nth_mkseq.
Qed.

(** *** When scoring succeeds *)

Lemma calculate_distance_inv (self0 : MahalanobisDistance.t R) image
    (bands : seq int) (nb h w N : nat) (out : np.ndarray R) :
  let values :=
    ReferencePixels.values (MahalanobisDistance.reference_pixels self0) in
  MahalanobisDistance.bands_to_use self0 = Some bands ->
  np.shape values = [:: size bands; N] ->
  np.well_formed image -> np.shape image = [:: nb; h; w] ->
  MahalanobisDistance.calculate_distance
    (with_statistics self0) image = Ok out ->
  exists ks,
    [/\ np.normalize_indices nb bands = Some ks, (1 < size bands)%N
      & np.to_mx (size bands) (size bands) (np.cov values) \in unitmx].
Proof.
move=> values Hb shv wf sh.
case Eks: (np.normalize_indices nb bands) => [ks|]; last first.
  rewrite /MahalanobisDistance.calculate_distance.
  rewrite /MahalanobisDistance.squared_distance /= Hb.
  by rewrite /BaseDistance.pixels_of /= /np.take0 /np.ndim sh /= Eks.
case EB: (size bands) => [|[|B]].
- move/size0nil: EB Hb => -> Hb.
  by rewrite no_band_fails // /np.ndim sh.
- move: shv; rewrite EB => shv.
  by rewrite (single_band_fails Hb shv) // (pixels_ofP wf sh Eks) ?EB.
move: shv; rewrite EB => shv He; exists ks; split=> //.
apply: contraT => nunit; move: He.
rewrite /MahalanobisDistance.calculate_distance.
rewrite /MahalanobisDistance.squared_distance /= Hb.
rewrite (pixels_ofP wf sh Eks) ?EB //=.
by rewrite /np.linalg_inv (@shape_cov _ B.+2 N) //= eqxx /= (negbTE nunit).
Qed.

(** *** Locality *)

Lemma pixels_of_inv (bands : seq int) image (nb h w : nat)
    (px : np.ndarray R) :
  np.shape image = [:: nb; h; w] ->
  BaseDistance.pixels_of (Some bands) image = Ok px ->
  exists ks, np.normalize_indices nb bands = Some ks /\ (0 < size bands)%N.
Proof.
move=> sh; rewrite /BaseDistance.pixels_of /= /np.take0 /np.ndim sh /=.
case: (np.normalize_indices nb bands) => [ks|] //=.
rewrite /np.reshape_rows; case: (posnP (size bands)) => [->|] //= B_gt0 _.
by exists ks.
Qed.

Lemma pixel_vector_agree (bands : seq int) (ks : seq nat) (nb : nat)
    (image1 image2 : np.ndarray R) (r c : nat) :
  np.normalize_indices nb bands = Some ks ->
  agree_at bands nb image1 image2 r c ->
  pixel_vector (size bands) image1 ks r c
  = pixel_vector (size bands) image2 ks r c.
Proof.
move=> Eks agree; apply/rowP => i; rewrite !mxE.
by apply: (agree i) => //; apply: normalize_indices_nth.
Qed.

End Scoring.

Section Lifecycle.

Variable R : rcfType.
Variable fit : nat -> np.ndarray R -> result (mixture.GaussianMixture R).
Variable log_prob : mixture.GaussianMixture R -> seq R -> R.

Notation GMM_calculate_distance :=
  (GaussianMixtureModelDistance.calculate_distance log_prob).

(** The mixture score of a three-dimensional image. *)
Lemma gmm_calculate_distanceP (self : GaussianMixtureModelDistance.t R)
    (image : np.ndarray R) (bands : seq int) (ks : seq nat) (nb h w : nat) :
  GaussianMixtureModelDistance.bands_to_use self = Some bands ->
  np.well_formed image -> np.shape image = [:: nb; h; w] ->
  np.normalize_indices nb bands = Some ks -> (0 < size bands)%N ->
  GMM_calculate_distance self image
  = (g <- getattr attr_gmm (GaussianMixtureModelDistance.gmm self) ;;
     if (0 < h * w)%N && (size bands == mixture.n_features_in_ g) then
       Ok (np.NdArray [:: 1%N; h; w]
             (mkseq (fun p => log_prob g
                       (mkseq (fun i => nth 0 (np.flat image)
                                          (nth 0%N ks i * (h * w) + p))
                              (size bands)))
                    (h * w)))
     else Raise ValueError).
Proof.
move=> Hb wf sh Eks B_gt0.
rewrite /GaussianMixtureModelDistance.calculate_distance Hb.
rewrite (pixels_ofP wf sh Eks) //=.
case: (GaussianMixtureModelDistance.gmm self) => [g|] //=.
rewrite /mixture.score_samples /= B_gt0 andbT; case: ifP => //= _.
rewrite /np.shape_at /np.ndim sh /= /np.reshape /= size_mkseq.
rewrite mul1n muln1 eqxx; congr Ok.
congr np.NdArray; apply: mkseq_in_eq => p ltp; congr log_prob.
by apply: mkseq_in_eq => i lti; rewrite at2_mk2.
Qed.

(** C10. Scoring is local.  Take two three-dimensional images of one shape
    that carry the same values at the cell [(r, c)] on all selected bands.
    If a fitted unimodal model, or a mixture model, scores the first image,
    it scores the second one too, and the two results agree at
    [(r, c)]. *)
Theorem scoring_is_local (image1 image2 : np.ndarray R) (nb h w r c : nat) :
  np.well_formed image1 -> np.well_formed image2 ->
  np.shape image1 = [:: nb; h; w] -> np.shape image2 = [:: nb; h; w] ->
  (r < h)%N -> (c < w)%N ->
  (forall (self0 self : MahalanobisDistance.t R) bands N out1,
     MahalanobisDistance.calculate_statistics self0 = Ok self ->
     MahalanobisDistance.bands_to_use self0 = Some bands ->
     np.shape (ReferencePixels.values
                 (MahalanobisDistance.reference_pixels self0))
     = [:: size bands; N] ->
     agree_at bands nb image1 image2 r c ->
     MahalanobisDistance.calculate_distance self image1 = Ok out1 ->
     exists2 out2,
       MahalanobisDistance.calculate_distance self image2 = Ok out2
       & np.item3 0 out1 0 r c = np.item3 0 out2 0 r c)
  /\
  (forall (self : GaussianMixtureModelDistance.t R) bands out1,
     GaussianMixtureModelDistance.bands_to_use self = Some bands ->
     agree_at bands nb image1 image2 r c ->
     GMM_calculate_distance self image1 = Ok out1 ->
     exists2 out2,
       GMM_calculate_distance self image2 = Ok out2
       & np.item3 0 out1 0 r c = np.item3 0 out2 0 r c).
Proof.
move=> wf1 wf2 sh1 sh2 ltr ltc; split.
  move=> self0 self1 bands N out1 /calculate_statisticsP -> Hb shv agree He.
  set self := with_statistics self0 in He *.
  have [ks [Eks B_gt1 unitS]] := calculate_distance_inv Hb shv wf1 sh1 He.
  have B_gt0 : (0 < size bands)%N by apply: ltnW.
  have E image nb' (wf : np.well_formed image)
      (sh : np.shape image = [:: nb'; h; w])
      (Eks' : np.normalize_indices nb' bands = Some ks) :=
    @calculate_distanceP _ self image bands ks _ _ nb' h w (size bands) Hb
      (erefl _) B_gt0 (erefl _) (erefl _) (shape_cov shv B_gt1)
      (shape_average shv) unitS wf sh Eks'.
  move: He; rewrite (E _ _ wf1 sh1 Eks) => -[<-].
  eexists; first exact: (E _ _ wf2 sh2 Eks).
  rewrite !item3_out // raster_div // raster_mod //.
  by rewrite (pixel_vector_agree Eks agree).
move=> self bands out1 Hb agree.
case Epx: (BaseDistance.pixels_of (Some bands) image1) => [px|e]; last first.
  by rewrite /GaussianMixtureModelDistance.calculate_distance Hb Epx.
have [ks [Eks B_gt0]] := pixels_of_inv sh1 Epx.
rewrite (gmm_calculate_distanceP Hb wf1 sh1 Eks B_gt0).
rewrite (gmm_calculate_distanceP Hb wf2 sh2 Eks B_gt0).
case: (GaussianMixtureModelDistance.gmm self) => [g|] //=.
case: ifP => // _ [<-]; eexists; first by [].
rewrite !item3_out //; congr log_prob; apply: mkseq_in_eq => i lti.
have /rowP/(_ (Ordinal lti)) := pixel_vector_agree Eks agree.
by rewrite !mxE /= (item3_flat _ _ _ sh1) (item3_flat _ _ _ sh2).
Qed.

(** *** Scoring before fitting *)

Lemma pixels_of_errors (b : option (seq int)) (image : np.ndarray R)
    (e : exn) :
  BaseDistance.pixels_of b image = Raise e ->
  [\/ e = AssertionError, e = IndexError | e = ValueError].
Proof.
rewrite /BaseDistance.pixels_of; case: b => [bands|] /=; last first.
  by case=> <-; constructor 1.
rewrite /np.take0; case: ifP => _ /=; first by case=> <-; constructor 2.
case: (np.normalize_indices _ _) => [ks|] /=; last first.
  by case=> <-; constructor 2.
by rewrite /np.reshape_rows; case: ifP => //= _ [<-]; constructor 3.
Qed.

(** C9. A model whose statistics have not been calculated yet
    cannot score any image: [calculate_distance] raises.  The module has no
    error of its own for this; the exception is the [AttributeError] of the
    missing attribute ([covariance], respectively [gmm]) when the image can
    be laid out as [pixels], and otherwise the [AssertionError],
    [IndexError] or [ValueError] of that earlier step.  A freshly
    constructed model is in this state. *)
Theorem score_before_fit_fails (self : MahalanobisDistance.t R)
    (selfg : GaussianMixtureModelDistance.t R) (image : np.ndarray R) :
  MahalanobisDistance.covariance self = None ->
  GaussianMixtureModelDistance.gmm selfg = None ->
  [/\ MahalanobisDistance.calculate_distance self image
      = (if BaseDistance.pixels_of (MahalanobisDistance.bands_to_use self)
              image is Raise e
         then Raise e else Raise (AttributeError attr_covariance)),
      GMM_calculate_distance selfg image
      = (if BaseDistance.pixels_of
              (GaussianMixtureModelDistance.bands_to_use selfg) image
           is Raise e
         then Raise e else Raise (AttributeError attr_gmm)),
      forall b e, BaseDistance.pixels_of b image = Raise e ->
        [\/ e = AssertionError, e = IndexError | e = ValueError]
    & forall (reference : rasterio.dataset R) annotated bands,
        (forall m, MahalanobisDistance.init reference annotated bands = Ok m ->
           MahalanobisDistance.covariance m = None) /\
        (forall n m,
           GaussianMixtureModelDistance.init n reference annotated bands
           = Ok m ->
           GaussianMixtureModelDistance.gmm m = None)].
Proof.
move=> Hc Hg; split.
- rewrite /MahalanobisDistance.calculate_distance.
  rewrite /MahalanobisDistance.squared_distance Hc.
  by case: (BaseDistance.pixels_of _ _).
- rewrite /GaussianMixtureModelDistance.calculate_distance Hg.
  by case: (BaseDistance.pixels_of _ _).
- by move=> b e; apply: pixels_of_errors.
move=> reference annotated bands; split=> [m|n m].
  rewrite /MahalanobisDistance.init.
  by case: (ReferencePixels.init _ _ _) => [rp|e] //= [<-].
rewrite /GaussianMixtureModelDistance.init.
by case: (ReferencePixels.init _ _ _) => [rp|e] //= [<-].
Qed.

(** *** The floor on the number of annotated pixels *)

(** C3. Once the sample has been extracted, construction fails with the
    "Not enough annotated pixels" exception exactly when the number [N] of
    foreground cells, which is the number of columns of the sample, is at
    most 100: 100 cells raise and 101 do not.  The exception leaves the
    constructor of [ReferencePixels], so no model object comes into
    being on which statistics could be calculated. *)
Theorem insufficient_sample_boundary (reference : rasterio.dataset R)
    (annotated : rasterio.dataset int) (bands : option (seq int))
    (self : ReferencePixels.t R) :
  let start :=
    ReferencePixels.loaded
      (ReferencePixels.Make reference annotated bands
         np.zeros0 np.zeros0 np.zeros0) in
  ReferencePixels.generate_pixel_mask ReferencePixels.default_lower_range
    ReferencePixels.default_higher_range start = Ok self ->
  exists fg B,
    let N := count id (np.flat fg) in
    let too_few := Exception (Not_enough_annotated_pixels 100 N) in
    [/\ ReferencePixels.foreground ReferencePixels.default_lower_range
          ReferencePixels.default_higher_range start = Ok fg,
        np.shape (ReferencePixels.values self) = [:: B; N],
        (N <= 100)%N ->
          [/\ ReferencePixels.init reference annotated bands = Raise too_few,
              MahalanobisDistance.init reference annotated bands
              = Raise too_few
            & forall n,
                GaussianMixtureModelDistance.init n reference annotated bands
                = Raise too_few]
      & (100 < N)%N ->
          [/\ ReferencePixels.init reference annotated bands = Ok self,
              MahalanobisDistance.init reference annotated bands
              = Ok (MahalanobisDistance.Make self
                      (ReferencePixels.bands_to_use self) None None)
            & forall n,
                GaussianMixtureModelDistance.init n reference annotated bands
                = Ok (GaussianMixtureModelDistance.Make self
                        (ReferencePixels.bands_to_use self) n
                        None None None)]].
Proof.
move=> start G.
have [b Hb] : exists b, ReferencePixels.bands_to_use start = Some b.
  by rewrite /start /ReferencePixels.loaded /=; case: bands {start G};
    eexists.
have [_ [fg [Efg shv]]] := generate_pixel_mask_shape Hb G.
exists fg, (size b) => N too_few.
have Einit : ReferencePixels.init reference annotated bands
             = ReferencePixels.show_statistics_of_pixel_mask self.
  by rewrite /ReferencePixels.init /ReferencePixels.initialize -/start G.
have Eshow : ReferencePixels.show_statistics_of_pixel_mask self
             = if (N <= 100)%N then Raise too_few else Ok self.
  rewrite /ReferencePixels.show_statistics_of_pixel_mask.
  by rewrite /np.shape_at /np.ndim shv.
split=> // [le100|lt100].
  rewrite /MahalanobisDistance.init /GaussianMixtureModelDistance.init.
  by rewrite Einit Eshow le100.
rewrite /MahalanobisDistance.init /GaussianMixtureModelDistance.init.
by rewrite Einit Eshow leqNgt lt100.
Qed.

End Lifecycle.

(** ** Concrete inputs *)

Section SamplerExamples.

Import Examples.

(** C2. The configured box is open at its lower bounds too: under the
    defaults, the pixel (245, 0, 0) of the lower corner is background, and
    so is pure red (255, 0, 0), whose green and blue values are not
    strictly greater than 0; (246, 1, 1) is foreground. *)
Theorem rgb_lower_bound_excluded :
  let foreground :=
    ReferencePixels.foreground ReferencePixels.default_lower_range
      ReferencePixels.default_higher_range in
  [/\ foreground (rgb_pixel 245 0 0) = Ok (np.NdArray [:: 1; 1]%N [:: false]),
      foreground (rgb_pixel 255 0 0) = Ok (np.NdArray [:: 1; 1]%N [:: false])
    & foreground (rgb_pixel 246 1 1) = Ok (np.NdArray [:: 1; 1]%N [:: true])].
Proof. by []. Qed.

Lemma grey_mask_threshold_witness :
  exists fg,
    [/\ ReferencePixels.foreground ReferencePixels.default_lower_range
          ReferencePixels.default_higher_range sampler_2x2 = Ok fg,
        np.shape fg = [:: 2; 2]%N
      & forall r c, (r < 2)%N -> (c < 2)%N ->
          let v := np.item3 0 (ReferencePixels.mask sampler_2x2) 0 r c in
          [/\ np.item2 false fg r c = (127 < v),
              v = 127 -> np.item2 false fg r c = false
            & v = 128 -> np.item2 false fg r c = true]].
Proof.
exact: (@grey_mask_threshold nat ReferencePixels.default_lower_range
          ReferencePixels.default_higher_range sampler_2x2 2 2
          (erefl _) (erefl _)).
Defined.

Lemma sample_layout_witness :
  exists fg ks,
    [/\ ReferencePixels.foreground ReferencePixels.default_lower_range
          ReferencePixels.default_higher_range sampler_2x2 = Ok fg,
        np.shape (np.NdArray [:: 3; 2]%N [:: 22; 23; 2; 3; 12; 13]%N)
        = [:: 3; count id (np.flat fg)]%N,
        forall i, (i < 3)%N ->
          np.normalize_index 3 (nth 0 [:: 2; -3; 1] i) = Some (nth 0%N ks i),
        sorted ltn (true_cells (np.flat fg))
      & forall i k, (i < 3)%N -> (k < count id (np.flat fg))%N ->
          let pos := nth 0%N (true_cells (np.flat fg)) k in
          np.item2 false fg (pos %/ 2) (pos %% 2) = true /\
          np.item2 0%N (np.NdArray [:: 3; 2]%N [:: 22; 23; 2; 3; 12; 13]%N)
            i k
          = np.item3 0%N (ReferencePixels.reference_image sampler_2x2)
              (nth 0%N ks i) (pos %/ 2) (pos %% 2)].
Proof.
exact: (@sample_layout nat 0%N ReferencePixels.default_lower_range
          ReferencePixels.default_higher_range sampler_2x2
          (ReferencePixels.set_values sampler_2x2
             (np.NdArray [:: 3; 2]%N [:: 22; 23; 2; 3; 12; 13]%N))
          3 2 2 1 2 2 [:: 2; -3; 1]
          (erefl _) (erefl _) (erefl _) (erefl _) (erefl _) (erefl _)).
Defined.

Lemma default_band_selection_witness :
  let reference := uniform_reference 7%N 4 101 in
  let annotated := full_annotation 101 in
  exists self,
    [/\ ReferencePixels.init reference annotated None = Ok self,
        ReferencePixels.bands_to_use self = Some [:: 0; 1; 2]
      & exists N, np.shape (ReferencePixels.values self) = [:: 3%N; N]].
Proof.
move=> reference annotated.
have [_ H _] := default_band_selection reference annotated.
case E: (ReferencePixels.init reference annotated None) => [self|e];
  last by vm_compute in E.
have [Hb Hs] := H self E.
exists self; split; [exact: erefl | exact: Hb | exact: Hs].
Defined.

End SamplerExamples.

Section ModelExamples.

Import Examples.

Variable R : rcfType.

Lemma at2_cov (values : np.ndarray R) (B N i j : nat) :
  np.shape values = [:: B; N] -> (1 < B)%N -> (i < B)%N -> (j < B)%N ->
  np.at2 (np.cov values) i j
  = (\sum_(0 <= k < N)
       (np.at2 values i k - np.at1 (np.mean_axis1 values) i)
       * (np.at2 values j k - np.at1 (np.mean_axis1 values) j))
    * (1 / (N - 1)%N%:R).
Proof.
move=> sh B_gt1 lti ltj.
rewrite {1}/np.at2 /np.ncols (shape_cov sh B_gt1) /=.
rewrite /np.cov /np.nrows /np.ncols sh /=.
have -> /= : (B == 0%N) = false by case: B B_gt1 {sh lti ltj}.
by rewrite nth_mkseq ?ltn_raster // raster_div // raster_mod.
Qed.

(** The example sampler is what [generate_pixel_mask] extracts from the
    example rasters. *)
Lemma sampler_2x4_extracted :
  ReferencePixels.generate_pixel_mask ReferencePixels.default_lower_range
    ReferencePixels.default_higher_range
    (ReferencePixels.loaded
       (ReferencePixels.Make (reference_2x4 R) (full_annotation 4)
          (Some [:: 0; 1]) np.zeros0 np.zeros0 np.zeros0))
  = Ok (sampler_2x4 R).
Proof. by []. Qed.

(** The covariance of the four example pixels is 4/3 times the identity. *)
Lemma cov_values_2x4 :
  np.to_mx 2 2 (np.cov (values_2x4 R)) = (4%:R / 3%:R)%:M.
Proof.
apply/matrixP => i j.
rewrite (to_mxE _ _ (@shape_cov _ (values_2x4 R) 2 4 (erefl _) (erefl _))).
rewrite (@at2_cov _ 2 4) // !(@at1_average _ _ 2 4) // mxE.
rewrite /index_iota /= !big_cons !big_nil /np.at2 /np.ncols /=.
case: i => [[|[|i]] //= lti]; case: j => [[|[|j]] //= ltj];
  rewrite ?mulnE ?addnE /= ?mulr1n ?mulr0n subn1 /=; field.
Qed.

Lemma cov_values_2x4_unit :
  np.to_mx 2 2 (np.cov (values_2x4 R)) \in unitmx.
Proof.
rewrite cov_values_2x4 unitmxE det_scalar unitfE expf_neq0 //.
by rewrite mulf_neq0 ?invr_neq0 ?pnatr_eq0.
Qed.

End ModelExamples.

Section ModelWitnesses.

Import Examples.

Let fitted_2x4 : MahalanobisDistance.t algR :=
  with_statistics (unfitted_2x4 algR).

Lemma fitted_2x4_scores (image : np.ndarray algR) (h w : nat) :
  np.well_formed image -> np.shape image = [:: 2%N; h; w] ->
  MahalanobisDistance.calculate_distance fitted_2x4 image
  = Ok (np.NdArray [:: 1%N; h; w]
         (mkseq (fun p => mahalanobis
                            (np.to_mx 2 2 (np.cov (values_2x4 algR)))
                            (mean_vector 2
                               (np.mean_axis1 (values_2x4 algR)))
                            (pixel_vector 2 image [:: 0; 1]%N
                               (p %/ w) (p %% w)))
                (h * w))).
Proof.
move=> wf sh.
exact: (@calculate_distanceP algR fitted_2x4 image [:: 0; 1] [:: 0; 1]%N
          _ _ 2 h w 2 (erefl _) (erefl _) (erefl _) (erefl _) (erefl _)
          (@shape_cov _ (values_2x4 algR) 2 4 (erefl _) (erefl _))
          (@shape_average _ (values_2x4 algR) 2 4 (erefl _))
          (cov_values_2x4_unit algR) wf sh (erefl _)).
Qed.

Lemma mahalanobis_distance_formula_example :
  let S := np.to_mx 2 2 (np.cov (values_2x4 algR)) in
  let m := mean_vector 2 (np.mean_axis1 (values_2x4 algR)) in
  exists out,
    [/\ MahalanobisDistance.calculate_distance fitted_2x4 (image_a algR)
        = Ok out,
        np.shape out = [:: 1; 1; 2]%N,
        np.well_formed out
      & forall r c, (r < 1)%N -> (c < 2)%N ->
          np.item3 0 out 0 r c
          = mahalanobis S m (pixel_vector 2 (image_a algR) [:: 0; 1]%N r c)].
Proof.
exact: (@mahalanobis_distance_formula algR (unfitted_2x4 algR)
          (image_a algR) [:: 0; 1] [:: 0; 1]%N 2 1 2 2 4
          (erefl _) (erefl _) (erefl _) (erefl _)
          (cov_values_2x4_unit algR) (erefl _) (erefl _) (erefl _)).
Defined.

Lemma score_before_fit_fails_witness :
  MahalanobisDistance.calculate_distance (unfitted_2x4 algR) (image_a algR)
  = (if BaseDistance.pixels_of (Some [:: 0; 1]) (image_a algR) is Raise e
     then Raise e else Raise (AttributeError attr_covariance)) /\
  GaussianMixtureModelDistance.calculate_distance (@toy_log_prob algR)
    (unfitted_mixture algR) (image_a algR)
  = (if BaseDistance.pixels_of (Some [:: 0; 1]) (image_a algR) is Raise e
     then Raise e else Raise (AttributeError attr_gmm)).
Proof.
have [HM HG _ _] :=
  @score_before_fit_fails algR (@toy_log_prob algR) (unfitted_2x4 algR)
    (unfitted_mixture algR) (image_a algR) (erefl _) (erefl _).
by split; [exact: HM | exact: HG].
Defined.

Lemma agree_image_a_b :
  agree_at [:: 0; 1] 2 (image_a algR) (image_b algR) 0 0.
Proof. by move=> [|[|i]] k //= _ [<-]. Qed.

Lemma fitted_mixture_scores :
  GaussianMixtureModelDistance.calculate_distance (@toy_log_prob algR)
    (fitted_mixture algR) (image_a algR)
  = Ok (np.NdArray [:: 1; 1; 2]%N
          (mkseq (fun p => toy_log_prob (toy_mixture algR)
                    (mkseq (fun i => nth 0 (np.flat (image_a algR))
                                       (nth 0%N [:: 0; 1]%N i * (1 * 2) + p))
                           2))
                 (1 * 2))).
Proof.
exact: (@gmm_calculate_distanceP algR (@toy_log_prob algR)
          (fitted_mixture algR) (image_a algR) [:: 0; 1] [:: 0; 1]%N 2 1 2
          (erefl _) (erefl _) (erefl _) (erefl _) (erefl _)).
Qed.

Lemma scoring_is_local_witness :
  exists out1 out2 outg1 outg2,
    [/\ MahalanobisDistance.calculate_distance fitted_2x4 (image_a algR)
        = Ok out1,
        MahalanobisDistance.calculate_distance fitted_2x4 (image_b algR)
        = Ok out2
      & np.item3 0 out1 0 0 0 = np.item3 0 out2 0 0 0] /\
    [/\ GaussianMixtureModelDistance.calculate_distance (@toy_log_prob algR)
          (fitted_mixture algR) (image_a algR) = Ok outg1,
        GaussianMixtureModelDistance.calculate_distance (@toy_log_prob algR)
          (fitted_mixture algR) (image_b algR) = Ok outg2
      & np.item3 0 outg1 0 0 0 = np.item3 0 outg2 0 0 0].
Proof.
have [HM HG] :=
  @scoring_is_local algR (@toy_log_prob algR) (image_a algR) (image_b algR)
    2 1 2 0 0 (erefl _) (erefl _) (erefl _) (erefl _) (erefl _) (erefl _).
have E1 := @fitted_2x4_scores (image_a algR) 1 2 (erefl _) (erefl _).
have [out2 E2 Eo] :=
  HM (unfitted_2x4 algR) _ [:: 0; 1] 4%N _
     (@calculate_statistics_ok algR (unfitted_2x4 algR) 2 4 (erefl _)
        (erefl _))
     (erefl _) (erefl _) agree_image_a_b E1.
have [outg2 Eg2 Eog] :=
  HG (fitted_mixture algR) [:: 0; 1] _ (erefl _) agree_image_a_b
     fitted_mixture_scores.
do 3![eexists]; exists outg2; split; split;
  [exact: E1 | exact: E2 | exact: Eo | exact: fitted_mixture_scores
  | exact: Eg2 | exact: Eog].
Defined.

(** Construction on uniform one-row rasters, whatever the samples are. *)
Lemma uniform_start (T : Type) (x : T) (count width : nat) :
  ReferencePixels.loaded
    (ReferencePixels.Make (uniform_reference x count width)
       (full_annotation width) None np.zeros0 np.zeros0 np.zeros0)
  = ReferencePixels.Make (uniform_reference x count width)
      (full_annotation width) (Some [seq Posz i | i <- iota 0 count.-1])
      (rasterio.read (uniform_reference x count width))
      (rasterio.read (full_annotation width)) np.zeros0.
Proof. by rewrite /ReferencePixels.loaded /= range_pred. Qed.

Lemma uniform_sample_100 (T : Type) (x : T) :
  let start :=
    ReferencePixels.loaded
      (ReferencePixels.Make (uniform_reference x 2 100) (full_annotation 100)
         None np.zeros0 np.zeros0 np.zeros0) in
  ReferencePixels.generate_pixel_mask ReferencePixels.default_lower_range
    ReferencePixels.default_higher_range start
  = Ok (ReferencePixels.set_values start
          (np.NdArray [:: 1; 100]%N (nseq 100 x))).
Proof. by vm_compute. Qed.

Lemma uniform_sample_101 (T : Type) (x : T) :
  let start :=
    ReferencePixels.loaded
      (ReferencePixels.Make (uniform_reference x 2 101) (full_annotation 101)
         None np.zeros0 np.zeros0 np.zeros0) in
  ReferencePixels.generate_pixel_mask ReferencePixels.default_lower_range
    ReferencePixels.default_higher_range start
  = Ok (ReferencePixels.set_values start
          (np.NdArray [:: 1; 101]%N (nseq 101 x))).
Proof. by vm_compute. Qed.

Lemma full_annotation_foreground (T : Type) (x : T) (width : nat)
    (fg : np.ndarray bool) :
  ReferencePixels.foreground ReferencePixels.default_lower_range
    ReferencePixels.default_higher_range
    (ReferencePixels.loaded
       (ReferencePixels.Make (uniform_reference x 2 width)
          (full_annotation width) None np.zeros0 np.zeros0 np.zeros0))
  = Ok fg ->
  count id (np.flat fg) = width.
Proof.
rewrite (@foreground_grey _ _ _ _ 1 width) // => -[<-] /=.
rewrite /np.slice0 /np.inner /= drop0 muln1 take_oversize ?size_nseq ?mul1n //.
by rewrite map_nseq count_nseq /= mul1n.
Qed.

Lemma insufficient_sample_boundary_witness :
  [/\ ReferencePixels.init (uniform_reference (0 : algR) 2 100)
        (full_annotation 100) None
      = Raise (Exception (Not_enough_annotated_pixels 100 100)),
      MahalanobisDistance.init (uniform_reference (0 : algR) 2 100)
        (full_annotation 100) None
      = Raise (Exception (Not_enough_annotated_pixels 100 100))
    & exists self,
        ReferencePixels.init (uniform_reference (0 : algR) 2 101)
          (full_annotation 101) None = Ok self /\
        MahalanobisDistance.init (uniform_reference (0 : algR) 2 101)
          (full_annotation 101) None
        = Ok (MahalanobisDistance.Make self
                (ReferencePixels.bands_to_use self) None None)].
Proof.
have [fg [B [Efg _ Hle _]]] :=
  insufficient_sample_boundary (uniform_sample_100 (0 : algR)).
have [fg' [B' [Efg' _ _ Hgt]]] :=
  insufficient_sample_boundary (uniform_sample_101 (0 : algR)).
move: Hle Hgt.
rewrite (full_annotation_foreground Efg) (full_annotation_foreground Efg').
move=> /(_ (erefl _)) [H1 H2 _] /(_ (erefl _)) [H3 H4 _].
by split; [exact: H1 | exact: H2 | eexists; split; [exact: H3 | exact: H4]].
Defined.

(** *** A model on a single band *)

Lemma spike_init (T : Type) (x1 x0 : T) :
  ReferencePixels.init (spike_reference x1 x0 101) (full_annotation 101) None
  = Ok (ReferencePixels.set_values
          (ReferencePixels.loaded
             (ReferencePixels.Make (spike_reference x1 x0 101)
                (full_annotation 101) None np.zeros0 np.zeros0 np.zeros0))
          (np.NdArray [:: 1; 101]%N (x1 :: nseq 100 x0))).
Proof. by vm_compute. Qed.

Lemma spike_variance (R : rcfType) :
  sample_covariance
    (data_matrix 1 101 (np.NdArray [:: 1; 101]%N ((1 : R) :: nseq 100 0)))
    \in unitmx.
Proof.
set X := data_matrix _ _ _.
have X0 (k : 'I_101) : X 0 k = (k == ord0)%:R.
  rewrite mxE /np.at2 /np.ncols mul0n add0n.
  case: k => [[|k] ltk]; first by [].
  by rewrite -[LHS]/(nth 0 (nseq 100 0) k) nth_nseq; case: ifP.
have mean : sample_mean X 0 0 = 1 / 101%:R.
  rewrite mxE (bigD1 ord0) //= X0 eqxx big1 ?addr0 // => k /negbTE nk.
  by rewrite X0 nk.
have c0 : centred X 0 ord0 != 0.
  by rewrite mxE X0 eqxx mean gt_eqF // [true%:R]/=; lra.
rewrite unitmxE det_mx11 unitfE mxE mulf_neq0 //.
  by rewrite invr_neq0 // pnatr_eq0.
rewrite mxE gt_eqF // (bigD1 ord0) //= ltr_pwDl //.
  by rewrite [X in _ * X]mxE -expr2 exprn_even_gt0.
by apply: sumr_ge0 => k _; rewrite [X in _ * X]mxE -expr2 sqr_ge0.
Qed.

(** C1. A model on a single band cannot score.  The model below is built
    and fitted on 101 annotated pixels of a two-band reference (default
    selection: band 0), its one by one sample covariance is invertible, the
    scored image has the selected band, and yet [calculate_distance] raises
    the [LinAlgError] of [np.linalg.inv] instead of returning the
    distances. *)
Theorem single_band_model_cannot_score :
  let reference := spike_reference (1 : algR) 0 101 in
  let annotated := full_annotation 101 in
  exists self0 self,
    let values :=
      ReferencePixels.values (MahalanobisDistance.reference_pixels self0) in
    [/\ MahalanobisDistance.init reference annotated None = Ok self0,
        MahalanobisDistance.calculate_statistics self0 = Ok self /\
        MahalanobisDistance.initialize self0 = Ok self,
        MahalanobisDistance.bands_to_use self = Some [:: 0] /\
        np.normalize_indices 2 [:: 0] = Some [:: 0%N],
        sample_covariance (data_matrix 1 101 values) \in unitmx
      & MahalanobisDistance.calculate_distance self (rasterio.read reference)
        = Raise LinAlgError].
Proof.
move=> reference annotated; eexists; eexists.
split; first by rewrite /MahalanobisDistance.init spike_init.
- split; first by rewrite (@calculate_statistics_ok _ _ 1 101).
  rewrite /MahalanobisDistance.initialize.
  by rewrite (@calculate_statistics_ok _ _ 1 101).
- by [].
- exact: spike_variance.
apply: (@single_band_fails _ _ _ [:: 0] 101); [by [] | by [] |].
by rewrite (@pixels_ofP _ [:: 0] _ 2 1 101 [:: 0%N]).
Qed.

(** *** A model that has not been fitted *)

Lemma uniform_init_3 (T : Type) (x : T) :
  ReferencePixels.init (uniform_reference x 3 101) (full_annotation 101) None
  = Ok (ReferencePixels.set_values
          (ReferencePixels.loaded
             (ReferencePixels.Make (uniform_reference x 3 101)
                (full_annotation 101) None np.zeros0 np.zeros0 np.zeros0))
          (np.NdArray [:: 2; 101]%N (nseq 202 x))).
Proof. by vm_compute. Qed.

(** C9 fails as stated: the freshly built model below raises an
    [IndexError] on an image that lacks a selected band, and an
    [AttributeError] on an image that has them all. *)
Lemma unfitted_model_errors :
  let reference := uniform_reference (0 : algR) 3 101 in
  exists self,
    [/\ MahalanobisDistance.init reference (full_annotation 101) None
        = Ok self,
        MahalanobisDistance.covariance self = None,
        MahalanobisDistance.calculate_distance self (image_one_band algR)
        = Raise IndexError
      & MahalanobisDistance.calculate_distance self (rasterio.read reference)
        = Raise (AttributeError attr_covariance)].
Proof.
move=> reference; eexists.
split; first by rewrite /MahalanobisDistance.init uniform_init_3.
- by [].
- by [].
rewrite /MahalanobisDistance.calculate_distance.
by rewrite /MahalanobisDistance.squared_distance /=.
Qed.

End ModelWitnesses.

(** * Further properties of the sampler *)

Section SamplerEdges.

Variable T : Type.

Implicit Types (self : ReferencePixels.t T) (lo hi : int * int * int).

Lemma nth_and_ (a b : np.ndarray bool) (i : nat) :
  size (np.flat a) = size (np.flat b) -> (i < size (np.flat a))%N ->
  nth false (np.flat (np.and_ a b)) i
  = nth false (np.flat a) i && nth false (np.flat b) i.
Proof.
move=> szab lti; rewrite /np.and_ /np.map2 /=.
by rewrite (nth_map (false, false)) ?size_zip -?szab ?minnn // nth_zip.
Qed.

Lemma size_and_ (a b : np.ndarray bool) :
  size (np.flat a) = size (np.flat b) ->
  size (np.flat (np.and_ a b)) = size (np.flat a).
Proof. by move=> szab; rewrite /= size_map size_zip -szab minnn. Qed.

(** X1. On a three- or four-band annotation a cell is foreground exactly
    when each of its first three band values lies strictly between the
    corresponding lower and higher bound; a fourth band is never looked
    at. *)
Theorem rgb_box_strict lo hi self (n h w : nat) :
  np.well_formed (ReferencePixels.mask self) ->
  np.shape (ReferencePixels.mask self) = [:: n; h; w] ->
  (n == 3%N) || (n == 4%N) ->
  exists fg,
    [/\ ReferencePixels.foreground lo hi self = Ok fg,
        np.shape fg = [:: h; w]
      & forall r c, (r < h)%N -> (c < w)%N ->
          let v b := np.item3 0 (ReferencePixels.mask self) b r c in
          np.item2 false fg r c
          = [&& lo.1.1 < v 0%N, v 0%N < hi.1.1,
                lo.1.2 < v 1%N, v 1%N < hi.1.2,
                lo.2 < v 2%N & v 2%N < hi.2]].
Proof.
move=> wf sh n34; rewrite (foreground_rgb lo hi sh n34).
eexists; split; [by [] | by rewrite /= sh |] => r c ltr ltc v.
have ltp := ltn_raster ltr ltc.
have szp b : (b < 3)%N ->
    size (np.slice0 (ReferencePixels.mask self) b) = (h * w)%N.
  move=> ltb; rewrite (size_slice0 wf sh) /= ?muln1 //.
  by case/orP: n34 => /eqP -> //; apply: ltn_trans ltb _.
have nthp b : (b < 3)%N ->
    nth 0 (np.slice0 (ReferencePixels.mask self) b) (r * w + c) = v b.
  move=> ltb; rewrite nth_slice0 /np.inner sh /= ?muln1 //.
  by rewrite /v /np.item3 sh /= mulnDl -mulnA addnA.
have gtE b x : (b < 3)%N ->
    nth false (np.flat (np.gt (np.plane (ReferencePixels.mask self) b) x))
        (r * w + c) = (x < v b).
  by move=> ltb; rewrite /= (nth_map 0) ?szp // nthp.
have ltE b x : (b < 3)%N ->
    nth false (np.flat (np.lt (np.plane (ReferencePixels.mask self) b) x))
        (r * w + c) = (v b < x).
  by move=> ltb; rewrite /= (nth_map 0) ?szp // nthp.
have szgt b x : (b < 3)%N ->
    size (np.flat (np.gt (np.plane (ReferencePixels.mask self) b) x))
    = (h * w)%N.
  by move=> ltb; rewrite /= size_map szp.
have szlt b x : (b < 3)%N ->
    size (np.flat (np.lt (np.plane (ReferencePixels.mask self) b) x))
    = (h * w)%N.
  by move=> ltb; rewrite /= size_map szp.
set X := np.and_ _ _.
have -> : np.item2 false X r c = nth false (np.flat X) (r * w + c).
  by rewrite /np.item2 /X /= sh.
rewrite /X !nth_and_ ?size_and_ ?szgt ?szlt //.
by rewrite !gtE // !ltE.
Qed.

(** The object [initialize] hands to [generate_pixel_mask]. *)
Lemma loadedE (reference : rasterio.dataset T)
    (annotated : rasterio.dataset int) (bands : option (seq int)) :
  ReferencePixels.loaded
    (ReferencePixels.Make reference annotated bands
       np.zeros0 np.zeros0 np.zeros0)
  = ReferencePixels.Make reference annotated
      (Some (effective_bands reference bands))
      (rasterio.read reference) (rasterio.read annotated) np.zeros0.
Proof.
by rewrite /ReferencePixels.loaded /effective_bands; case: bands => //=;
  rewrite range_pred.
Qed.

Lemma foreground_plane_shape lo hi self (fg : np.ndarray bool) :
  ReferencePixels.foreground lo hi self = Ok fg ->
  np.shape fg = behead (np.shape (ReferencePixels.mask self)) /\
  (size (np.flat fg) <= np.inner (ReferencePixels.mask self))%N.
Proof.
rewrite /ReferencePixels.foreground /ReferencePixels.pixel_mask.
case: (np.shape_at _ _) => [n|e] //=.
have szle : (size (np.slice0 (ReferencePixels.mask self) 0)
             <= np.inner (ReferencePixels.mask self))%N.
  by rewrite /np.slice0 size_take_min geq_minl.
case: ifP => _ /=.
  case=> <-; rewrite where_eq_255 /=; split=> //.
  by rewrite size_map size_zip size_map (leq_trans (geq_minl _ _)).
by case: ifP => // _ [<-]; rewrite where_eq_255 /= size_map.
Qed.

Lemma foreground_band_count lo hi self (n : nat) :
  np.shape_at (ReferencePixels.mask self) 0 = Ok n ->
  ~~ [|| n == 1%N, n == 3%N | n == 4%N] ->
  ReferencePixels.foreground lo hi self
  = Raise (Exception (Expected_BW_or_RGB_mask n)).
Proof.
rewrite /ReferencePixels.foreground /ReferencePixels.pixel_mask => -> /=.
by rewrite !negb_or => /and3P[/negbTE -> /negbTE -> /negbTE ->].
Qed.

Lemma foreground_is_ok lo hi self (n : nat) :
  np.shape_at (ReferencePixels.mask self) 0 = Ok n ->
  [|| n == 1%N, n == 3%N | n == 4%N] ->
  is_ok (ReferencePixels.foreground lo hi self).
Proof.
rewrite /ReferencePixels.foreground /ReferencePixels.pixel_mask => -> /=.
by case: (boolP ((n == 3%N) || (n == 4%N))) => //= _; rewrite orbF => ->.
Qed.



End SamplerEdges.

(** * Construction: what can go wrong *)

Section ConstructorEdges.

Variable R : rcfType.

Implicit Types (reference : rasterio.dataset R)
  (annotated : rasterio.dataset int) (bands : option (seq int)).

Let start reference annotated bands : ReferencePixels.t R :=
  ReferencePixels.Make reference annotated
    (Some (effective_bands reference bands))
    (rasterio.read reference) (rasterio.read annotated) np.zeros0.

Lemma init_start reference annotated bands :
  ReferencePixels.init reference annotated bands
  = (self <- ReferencePixels.generate_pixel_mask
               ReferencePixels.default_lower_range
               ReferencePixels.default_higher_range
               (start reference annotated bands) ;;
     ReferencePixels.show_statistics_of_pixel_mask self).
Proof.
by rewrite /ReferencePixels.init /ReferencePixels.initialize loadedE.
Qed.

(** An exception of [ReferencePixels] leaves both model constructors. *)
Lemma constructors_raise reference annotated bands (e : exn) :
  ReferencePixels.init reference annotated bands = Raise e ->
  [/\ ReferencePixels.init reference annotated bands = Raise e,
      MahalanobisDistance.init reference annotated bands = Raise e
    & forall n,
        GaussianMixtureModelDistance.init n reference annotated bands
        = Raise e].
Proof.
move=> E; rewrite /MahalanobisDistance.init.
by rewrite /GaussianMixtureModelDistance.init E.
Qed.

(** X2. An annotation raster whose band count is not 1, 3 or 4 makes
    construction fail with the "Expected a Black and White or RGB image"
    exception, which carries the band count; nothing else about the two
    rasters or the band selection is looked at before. *)
Theorem unexpected_mask_band_count reference annotated bands :
  ~~ [|| rasterio.count annotated == 1%N, rasterio.count annotated == 3%N
       | rasterio.count annotated == 4%N] ->
  let e := Exception (Expected_BW_or_RGB_mask (rasterio.count annotated)) in
  [/\ ReferencePixels.init reference annotated bands = Raise e,
      MahalanobisDistance.init reference annotated bands = Raise e
    & forall n,
        GaussianMixtureModelDistance.init n reference annotated bands
        = Raise e].
Proof.
move=> bad e; apply: constructors_raise.
rewrite init_start /ReferencePixels.generate_pixel_mask.
by rewrite (@foreground_band_count _ _ _ _ (rasterio.count annotated)).
Qed.

(** X3. When the annotation has 1, 3 or 4 bands but not the height and
    width of the reference raster, construction fails with NumPy's
    [IndexError] for a boolean index of the wrong extent. *)
Theorem extent_mismatch reference annotated bands :
  [|| rasterio.count annotated == 1%N, rasterio.count annotated == 3%N
    | rasterio.count annotated == 4%N] ->
  (rasterio.height reference, rasterio.width reference)
  != (rasterio.height annotated, rasterio.width annotated) ->
  [/\ ReferencePixels.init reference annotated bands = Raise IndexError,
      MahalanobisDistance.init reference annotated bands = Raise IndexError
    & forall n,
        GaussianMixtureModelDistance.init n reference annotated bands
        = Raise IndexError].
Proof.
move=> good differ; apply: constructors_raise.
rewrite init_start /ReferencePixels.generate_pixel_mask.
have := @foreground_is_ok _ ReferencePixels.default_lower_range
  ReferencePixels.default_higher_range (start reference annotated bands)
  (rasterio.count annotated) (erefl _) good.
case E: (ReferencePixels.foreground _ _ _) => [fg|e] //= _.
have [shfg _] := foreground_plane_shape E.
by rewrite /np.take_mask shfg /= -xpair_eqE (negbTE differ).
Qed.


(** X6. A reference raster of at most 100 cells can never be used:
    construction fails whatever the annotation and the band selection
    are. *)
Theorem small_raster_rejected reference annotated bands :
  (rasterio.height reference * rasterio.width reference <= 100)%N ->
  [/\ ~~ is_ok (ReferencePixels.init reference annotated bands),
      ~~ is_ok (MahalanobisDistance.init reference annotated bands)
    & forall n,
        ~~ is_ok (GaussianMixtureModelDistance.init n reference annotated
                    bands)].
Proof.
move=> small.
suff: ~~ is_ok (ReferencePixels.init reference annotated bands).
  rewrite /MahalanobisDistance.init /GaussianMixtureModelDistance.init.
  by case: (ReferencePixels.init _ _ _).
rewrite init_start /ReferencePixels.generate_pixel_mask.
case E: (ReferencePixels.foreground _ _ _) => [fg|e] //=.
have [shfg szfg] := foreground_plane_shape E.
rewrite /np.take_mask shfg /=.
case: ifP => //= /andP[/eqP eh /eqP ew]; rewrite /np.take0 /=.
case: (np.normalize_indices _ _) => [ks|] //=.
rewrite /ReferencePixels.show_statistics_of_pixel_mask /=.
rewrite /ReferencePixels.min_annotated_pixels.
have -> // : (count id (np.flat fg) <= 100)%N.
apply: leq_trans (count_size _ _) (leq_trans szfg _).
by rewrite /np.inner /= muln1 -eh -ew.
Qed.

End ConstructorEdges.

(** * Constructed and fitted models *)

Section ModelLifecycle.

Variable R : rcfType.
Variable fit : nat -> np.ndarray R -> result (mixture.GaussianMixture R).
Variable log_prob : mixture.GaussianMixture R -> seq R -> R.

Implicit Types (reference : rasterio.dataset R)
  (annotated : rasterio.dataset int) (bands : option (seq int))
  (image : np.ndarray R).

(** [generate_pixel_mask] assigns [values] and nothing else. *)
Lemma generate_pixel_mask_frame (T : Type) lo hi (self self' : ReferencePixels.t T) :
  ReferencePixels.generate_pixel_mask lo hi self = Ok self' ->
  exists v, self' = ReferencePixels.set_values self v.
Proof.
rewrite /ReferencePixels.generate_pixel_mask.
case: (ReferencePixels.foreground lo hi self) => [fg|e] //=.
case: (np.take_mask _ fg) => [v|e] //=.
by case: (if _ is Some _ then _ else _) => [v'|e] //= [<-]; exists v'.
Qed.

Lemma init_inv reference annotated bands (rp : ReferencePixels.t R) :
  ReferencePixels.init reference annotated bands = Ok rp ->
  let bs := effective_bands reference bands in
  exists fg,
    [/\ [/\ ReferencePixels.reference_image rp = rasterio.read reference,
            ReferencePixels.mask rp = rasterio.read annotated
          & ReferencePixels.bands_to_use rp = Some bs],
        ReferencePixels.foreground ReferencePixels.default_lower_range
          ReferencePixels.default_higher_range rp = Ok fg,
        np.shape (ReferencePixels.values rp)
        = [:: size bs; count id (np.flat fg)]
      & (100 < count id (np.flat fg))%N].
Proof.
rewrite init_start => Einit bs; move: Einit.
case G: (ReferencePixels.generate_pixel_mask _ _ _) => [self1|e] //=.
move=> /show_statistics_of_pixel_maskP[-> lt100].
have [|_ [fg [Efg shv]]] := @generate_pixel_mask_shape _ _ _ _ _ bs _ G.
  by [].
have [v Ev] := generate_pixel_mask_frame G.
move: lt100; rewrite shv /= => lt100.
by exists fg; split=> //; rewrite Ev.
Qed.

(** X5. What a successfully constructed object holds: both rasters as
    read, the effective band selection (copied by the model
    constructors, whose statistics do not exist yet), and a sample with
    one row per selected band and one column per foreground cell, of which
    there are more than 100. *)
Theorem constructed_invariant reference annotated bands
    (rp : ReferencePixels.t R) :
  ReferencePixels.init reference annotated bands = Ok rp ->
  let bs := effective_bands reference bands in
  exists fg,
    [/\ [/\ ReferencePixels.reference_image rp = rasterio.read reference,
            ReferencePixels.mask rp = rasterio.read annotated
          & ReferencePixels.bands_to_use rp = Some bs],
        [/\ ReferencePixels.foreground ReferencePixels.default_lower_range
              ReferencePixels.default_higher_range rp = Ok fg,
            np.shape (ReferencePixels.values rp)
            = [:: size bs; count id (np.flat fg)]
          & (100 < count id (np.flat fg))%N],
        MahalanobisDistance.init reference annotated bands
        = Ok (MahalanobisDistance.Make rp (Some bs) None None)
      & forall n,
          GaussianMixtureModelDistance.init n reference annotated bands
          = Ok (GaussianMixtureModelDistance.Make rp (Some bs) n
                  None None None)].
Proof.
move=> Einit bs; have [fg [[E1 E2 Ebs] Efg shv lt100]] := init_inv Einit.
exists fg; split=> //.
- by rewrite /MahalanobisDistance.init Einit /= Ebs.
- by move=> n; rewrite /GaussianMixtureModelDistance.init Einit /= Ebs.
Qed.

(** X12. A reference raster of a single band cannot be used with the
    default selection.  The selection is then empty: a model is built,
    but fitting the unimodal model fails with the [ZeroDivisionError] of
    [np.average] on a sample without rows, and both [calculate_distance]
    methods raise the [ValueError] of [np.reshape(..., (0, -1))] on every
    image of at least three axes. *)
Theorem single_band_reference_cannot_score reference annotated :
  rasterio.count reference = 1%N ->
  (forall m, MahalanobisDistance.init reference annotated None = Ok m ->
     [/\ MahalanobisDistance.bands_to_use m = Some [::],
         MahalanobisDistance.calculate_statistics m
         = Raise ZeroDivisionError,
         MahalanobisDistance.initialize m = Raise ZeroDivisionError
       & forall image, (2 < np.ndim image)%N ->
           MahalanobisDistance.calculate_distance m image
           = Raise ValueError]) /\
  (forall n m,
     GaussianMixtureModelDistance.init n reference annotated None = Ok m ->
     GaussianMixtureModelDistance.bands_to_use m = Some [::] /\
     forall image, (2 < np.ndim image)%N ->
       GaussianMixtureModelDistance.calculate_distance log_prob m image
       = Raise ValueError).
Proof.
move=> count1.
have Ebs : effective_bands reference None = [::].
  by rewrite /effective_bands count1.
split=> [m|n m].
  rewrite /MahalanobisDistance.init.
  case E: (ReferencePixels.init _ _ _) => [rp|e] //= [<-] /=.
  have [fg [[_ _ Eb] _ shv _]] := init_inv E.
  move: Eb shv; rewrite Ebs => Eb shv.
  have Estat : MahalanobisDistance.calculate_statistics
                 (MahalanobisDistance.Make rp
                    (ReferencePixels.bands_to_use rp) None None)
               = Raise ZeroDivisionError.
    by rewrite calculate_statisticsE /np.nrows /= shv.
  split=> //; first by rewrite /MahalanobisDistance.initialize Estat.
  by move=> image nd; rewrite no_band_fails.
rewrite /GaussianMixtureModelDistance.init.
case E: (ReferencePixels.init _ _ _) => [rp|e] //= [<-] /=.
have [fg [[_ _ ->] _ _ _]] := init_inv E.
rewrite Ebs; split=> // image nd.
rewrite /GaussianMixtureModelDistance.calculate_distance /=.
by rewrite /BaseDistance.pixels_of /= /np.take0 ltnNge nd.
Qed.

Lemma linalg_inv_errors (a : np.ndarray R) (e : exn) :
  np.linalg_inv a = Raise e -> e = LinAlgError.
Proof.
rewrite /np.linalg_inv; case: (np.shape a) => [|m [|n [|? ?]]]; try by case.
by case: ifP => _; [case | case: ifP => // _; case].
Qed.

Lemma reshape_tail_errors (a : np.ndarray R) image (e : exn) :
  (h <- np.shape_at image 1 ;; w <- np.shape_at image 2 ;;
   np.reshape a [:: 1%N; h; w]) = Raise e ->
  e = IndexError \/ e = ValueError.
Proof.
rewrite /np.shape_at; case: ifP => _ /=; last by case=> <-; left.
case: ifP => _ /=; last by case=> <-; left.
by rewrite /np.reshape; case: ifP => // _ [<-]; right.
Qed.

(** X14. What [BaseDistance.initialize] leaves behind.  On a unimodal
    model with a sample of [B] rows it succeeds exactly when [B] is not 0,
    and fails with [ZeroDivisionError] otherwise.  Once it has succeeded,
    on either model, [calculate_distance] never fails for a missing
    attribute: the unimodal model can only raise [AssertionError],
    [IndexError], [ValueError] or [LinAlgError], the mixture model only the
    first three. *)
Theorem fitted_scoring_exceptions :
  [/\ forall (self : MahalanobisDistance.t R) (B N : nat),
        np.shape (ReferencePixels.values
                    (MahalanobisDistance.reference_pixels self))
        = [:: B; N] ->
        if B == 0%N
        then MahalanobisDistance.initialize self = Raise ZeroDivisionError
        else is_ok (MahalanobisDistance.initialize self),
      forall (self fitted : MahalanobisDistance.t R) (B N : nat),
        np.shape (ReferencePixels.values
                    (MahalanobisDistance.reference_pixels self))
        = [:: B; N] ->
        MahalanobisDistance.initialize self = Ok fitted ->
        forall image e,
          MahalanobisDistance.calculate_distance fitted image = Raise e ->
          [\/ e = AssertionError, e = IndexError, e = ValueError
            | e = LinAlgError]
    & forall (self fitted : GaussianMixtureModelDistance.t R),
        GaussianMixtureModelDistance.initialize fit self = Ok fitted ->
        forall image e,
          GaussianMixtureModelDistance.calculate_distance log_prob fitted
            image
          = Raise e ->
          [\/ e = AssertionError, e = IndexError | e = ValueError]].
Proof.
split=> [self B N shv|self fitted B N _|self fitted].
- rewrite /MahalanobisDistance.initialize calculate_statisticsE.
  by rewrite /np.nrows shv /=; case: (B == 0%N).
- rewrite /MahalanobisDistance.initialize calculate_statisticsE.
  case: ifP => //= _ [<-] image e.
  rewrite /MahalanobisDistance.calculate_distance.
  rewrite /MahalanobisDistance.squared_distance /=.
  case Epx: (BaseDistance.pixels_of _ _) => [px|e'] /=; last first.
    case=> <-; case: (pixels_of_errors Epx) => ->;
      by [constructor 1 | constructor 2 | constructor 3].
  case Einv: (np.linalg_inv _) => [inv|e'] /=; last first.
    by case=> <-; rewrite (linalg_inv_errors Einv); constructor 4.
  rewrite /np.sub_rows; case: ifP => _ /=; last by case=> <-; constructor 3.
  rewrite /np.matmul; case: ifP => _ /=; first by case=> <-; constructor 3.
  rewrite /np.multiply; case: ifP => _ /=; last by case=> <-; constructor 3.
  by case/reshape_tail_errors=> ->; [constructor 2 | constructor 3].
rewrite /GaussianMixtureModelDistance.initialize.
rewrite /GaussianMixtureModelDistance.calculate_statistics.
case: (fit _ _) => [g|e'] //=; case=> <- image e.
rewrite /GaussianMixtureModelDistance.calculate_distance /=.
case Epx: (BaseDistance.pixels_of _ _) => [px|e'] /=.
  rewrite /mixture.score_samples.
  case: (np.shape px) => [|n [|f [|? ?]]] /=; try by case=> <-; constructor 3.
  case: ifP => _ /=; last by case=> <-; constructor 3.
  by case/reshape_tail_errors=> ->; [constructor 2 | constructor 3].
by case=> <-; case: (pixels_of_errors Epx) => ->;
  [constructor 1 | constructor 2 | constructor 3].
Qed.

End ModelLifecycle.

(** * Further properties of fitting and scoring *)

Section ScoringFacts.

Variable R : rcfType.

Implicit Types (image values : np.ndarray R)
  (model : MahalanobisDistance.t R).

(** X7. What [calculate_statistics] stores.  On a sample with [B] rows it
    fails with [ZeroDivisionError] when [B] is 0; otherwise it succeeds,
    keeps the sample and the band selection, and stores an [average] of
    shape [(B,)] and a [covariance] that is zero-dimensional for one band
    and of shape [(B, B)] for more. *)
Theorem statistics_stored model (B N : nat) :
  let values :=
    ReferencePixels.values (MahalanobisDistance.reference_pixels model) in
  np.shape values = [:: B; N] ->
  if B == 0%N
  then MahalanobisDistance.calculate_statistics model
       = Raise ZeroDivisionError
  else exists cov avg,
    [/\ MahalanobisDistance.calculate_statistics model
        = Ok (MahalanobisDistance.Make
                (MahalanobisDistance.reference_pixels model)
                (MahalanobisDistance.bands_to_use model)
                (Some cov) (Some avg)),
        np.shape avg = [:: B]
      & np.shape cov = if B == 1%N then [::] else [:: B; B]].
Proof.
move=> values shv; rewrite calculate_statisticsE -/values /np.nrows shv /=.
case B_eq0: (B == 0%N) => //.
exists (np.cov values), (np.mean_axis1 values); split=> //.
  exact: shape_average shv.
rewrite /np.cov /np.nrows shv /= B_eq0 /=.
by case: eqP.
Qed.



End ScoringFacts.

Section MixtureFacts.

Variable R : rcfType.
Variable log_prob : mixture.GaussianMixture R -> seq R -> R.

(** X13. The mixture model scores every cell by its own colour: for a
    fitted mixture whose feature count is the number of selected bands and
    a three-dimensional image with at least one cell and all the selected
    bands, [calculate_distance] returns an array of shape [[1; h; w]] whose
    value at [(r, c)] is the log-likelihood of the values of the selected
    bands at [(r, c)], in selection order. *)
Theorem mixture_score_formula (self : GaussianMixtureModelDistance.t R)
    (g : mixture.GaussianMixture R) (image : np.ndarray R)
    (bands : seq int) (ks : seq nat) (nb h w : nat) :
  GaussianMixtureModelDistance.bands_to_use self = Some bands ->
  GaussianMixtureModelDistance.gmm self = Some g ->
  np.well_formed image -> np.shape image = [:: nb; h; w] ->
  np.normalize_indices nb bands = Some ks ->
  (0 < size bands)%N -> (0 < h * w)%N ->
  size bands = mixture.n_features_in_ g ->
  exists out,
    [/\ GaussianMixtureModelDistance.calculate_distance log_prob self image
        = Ok out,
        np.shape out = [:: 1%N; h; w]
      & forall r c, (r < h)%N -> (c < w)%N ->
          np.item3 0 out 0 r c
          = log_prob g [seq np.item3 0 image (nth 0%N ks i) r c
                       | i <- iota 0 (size bands)]].
Proof.
move=> Hb Hg wf sh Eks B_gt0 hw_gt0 szb.
rewrite (gmm_calculate_distanceP log_prob Hb wf sh Eks B_gt0) Hg /=.
rewrite hw_gt0 szb eqxx /=; eexists; split=> // r c ltr ltc.
rewrite item3_out //; congr log_prob; apply: mkseq_in_eq => i lti.
by rewrite (item3_flat _ _ _ sh).
Qed.

End MixtureFacts.

(** * Axes of the image and repeated extraction *)

Section SelectionFacts.

Variable R : rcfType.
Variable log_prob : mixture.GaussianMixture R -> seq R -> R.

Implicit Types (reference : rasterio.dataset R)
  (annotated : rasterio.dataset int) (image : np.ndarray R).

(** X15. An image with fewer than three axes is rejected: whenever the
    model has a band selection (every constructed model has one), both
    [calculate_distance] methods raise the [IndexError] of
    [image[bands, :, :]], fitted or not. *)
Theorem image_needs_three_axes image :
  (np.ndim image < 3)%N ->
  (forall (self : MahalanobisDistance.t R) bands,
     MahalanobisDistance.bands_to_use self = Some bands ->
     MahalanobisDistance.calculate_distance self image = Raise IndexError) /\
  (forall (self : GaussianMixtureModelDistance.t R) bands,
     GaussianMixtureModelDistance.bands_to_use self = Some bands ->
     GaussianMixtureModelDistance.calculate_distance log_prob self image
     = Raise IndexError).
Proof.
move=> nd; split=> self bands Hb.
  rewrite /MahalanobisDistance.calculate_distance.
  rewrite /MahalanobisDistance.squared_distance Hb.
  by rewrite /BaseDistance.pixels_of /= /np.take0 nd.
rewrite /GaussianMixtureModelDistance.calculate_distance Hb.
by rewrite /BaseDistance.pixels_of /= /np.take0 nd.
Qed.

(** X16. [generate_pixel_mask] reads the rasters, the band selection and
    the two ranges, never the sample stored before: after a successful
    call, calling it again gives what a call on the original object gives,
    and with the same ranges it returns the object unchanged. *)
Theorem extraction_ignores_stored_sample (T : Type) lo hi
    (self self1 : ReferencePixels.t T) :
  ReferencePixels.generate_pixel_mask lo hi self = Ok self1 ->
  ReferencePixels.generate_pixel_mask lo hi self1 = Ok self1 /\
  forall lo' hi',
    ReferencePixels.generate_pixel_mask lo' hi' self1
    = ReferencePixels.generate_pixel_mask lo' hi' self.
Proof.
move=> G; have [v Ev] := generate_pixel_mask_frame G.
have again lo' hi' :
    ReferencePixels.generate_pixel_mask lo' hi' self1
    = ReferencePixels.generate_pixel_mask lo' hi' self.
  by rewrite Ev.
by split=> //; rewrite again G.
Qed.

End SelectionFacts.

(** * The further properties on the example inputs *)

Section FurtherExamples.

Import Examples.

Lemma uniform_init_1 (T : Type) (x : T) :
  ReferencePixels.init (uniform_reference x 1 101) (full_annotation 101) None
  = Ok (ReferencePixels.set_values
          (ReferencePixels.loaded
             (ReferencePixels.Make (uniform_reference x 1 101)
                (full_annotation 101) None np.zeros0 np.zeros0 np.zeros0))
          (np.NdArray [:: 0; 101]%N [::])).
Proof. by vm_compute. Qed.

Lemma rgb_box_strict_witness :
  exists fg,
    ReferencePixels.foreground ReferencePixels.default_lower_range
      ReferencePixels.default_higher_range (rgb_pixel 250 5 5) = Ok fg /\
    np.item2 false fg 0 0 = true.
Proof.
have [fg [E _ H]] :=
  @rgb_box_strict nat ReferencePixels.default_lower_range
    ReferencePixels.default_higher_range (rgb_pixel 250 5 5) 3 1 1
    (erefl _) (erefl _) (erefl _).
by exists fg; split; [exact: E | rewrite (H 0%N 0%N (erefl _) (erefl _))].
Defined.

Lemma unexpected_mask_band_count_witness :
  let reference := uniform_reference (0 : algR) 2 101 in
  let annotated := rasterio.Dataset 2 1 101 (nseq 202 (255 : int)) in
  [/\ ReferencePixels.init reference annotated None
      = Raise (Exception (Expected_BW_or_RGB_mask 2)),
      MahalanobisDistance.init reference annotated None
      = Raise (Exception (Expected_BW_or_RGB_mask 2))
    & forall n,
        GaussianMixtureModelDistance.init n reference annotated None
        = Raise (Exception (Expected_BW_or_RGB_mask 2))].
Proof.
exact: (@unexpected_mask_band_count algR (uniform_reference 0 2 101)
          (rasterio.Dataset 2 1 101 (nseq 202 (255 : int))) None (erefl _)).
Defined.

Lemma extent_mismatch_witness :
  MahalanobisDistance.init (uniform_reference (0 : algR) 2 101)
    (full_annotation 100) None
  = Raise IndexError.
Proof.
have [_ H _] :=
  @extent_mismatch algR (uniform_reference 0 2 101) (full_annotation 100)
    None (erefl _) (erefl _).
exact: H.
Defined.


Lemma constructed_invariant_witness :
  let reference := uniform_reference (0 : algR) 3 101 in
  exists rp fg,
    [/\ ReferencePixels.init reference (full_annotation 101) None = Ok rp,
        ReferencePixels.bands_to_use rp = Some [:: 0; 1],
        np.shape (ReferencePixels.values rp)
        = [:: 2%N; count id (np.flat fg)],
        (100 < count id (np.flat fg))%N
      & MahalanobisDistance.init reference (full_annotation 101) None
        = Ok (MahalanobisDistance.Make rp (Some [:: 0; 1]) None None)].
Proof.
have E := uniform_init_3 (0 : algR).
have [fg [[_ _ Eb] [_ shv lt100] EM _]] := constructed_invariant E.
eexists; exists fg.
by split; [exact: E | exact: Eb | exact: shv | exact: lt100 | exact: EM].
Defined.

Lemma small_raster_rejected_witness :
  ~~ is_ok (MahalanobisDistance.init (uniform_reference (0 : algR) 3 100)
              (full_annotation 100) (Some [:: 0; 1])).
Proof.
have [_ H _] :=
  @small_raster_rejected algR (uniform_reference 0 3 100)
    (full_annotation 100) (Some [:: 0; 1]) (erefl _).
exact: H.
Defined.

Lemma mixture_score_formula_witness :
  exists out,
    [/\ GaussianMixtureModelDistance.calculate_distance (@toy_log_prob algR)
          (fitted_mixture algR) (image_a algR) = Ok out,
        np.shape out = [:: 1; 1; 2]%N
      & forall r c, (r < 1)%N -> (c < 2)%N ->
          np.item3 0 out 0 r c
          = toy_log_prob (toy_mixture algR)
              [seq np.item3 0 (image_a algR) (nth 0%N [:: 0; 1]%N i) r c
              | i <- iota 0 2]].
Proof.
exact: (@mixture_score_formula algR (@toy_log_prob algR)
          (fitted_mixture algR) (toy_mixture algR) (image_a algR)
          [:: 0; 1] [:: 0; 1]%N 2 1 2 (erefl _) (erefl _) (erefl _)
          (erefl _) (erefl _) (erefl _) (erefl _) (erefl _)).
Defined.

Lemma image_needs_three_axes_witness :
  MahalanobisDistance.calculate_distance
    (with_statistics (unfitted_2x4 algR))
    (np.NdArray [:: 1; 2]%N [:: 3; 4])
  = Raise IndexError.
Proof.
have [H _] :=
  @image_needs_three_axes algR (@toy_log_prob algR)
    (np.NdArray [:: 1; 2]%N [:: 3; 4]) (erefl _).
exact: (H (with_statistics (unfitted_2x4 algR))
          [:: 0; 1] (erefl _)).
Defined.

Lemma extraction_ignores_stored_sample_witness :
  ReferencePixels.generate_pixel_mask ReferencePixels.default_lower_range
    ReferencePixels.default_higher_range (sampler_2x4 algR)
  = Ok (sampler_2x4 algR).
Proof.
have [H _] := extraction_ignores_stored_sample (sampler_2x4_extracted algR).
exact: H.
Defined.

Lemma statistics_stored_witness :
  exists cov avg,
    [/\ MahalanobisDistance.calculate_statistics (unfitted_2x4 algR)
        = Ok (MahalanobisDistance.Make (sampler_2x4 algR)
                (Some [:: 0; 1]) (Some cov) (Some avg)),
        np.shape avg = [:: 2%N]
      & np.shape cov = [:: 2; 2]%N].
Proof.
exact: (@statistics_stored algR (unfitted_2x4 algR) 2 4 (erefl _)).
Defined.


Lemma single_band_reference_cannot_score_witness :
  exists m,
    [/\ MahalanobisDistance.init (uniform_reference (0 : algR) 1 101)
          (full_annotation 101) None = Ok m,
        MahalanobisDistance.bands_to_use m = Some [::],
        MahalanobisDistance.calculate_statistics m
        = Raise ZeroDivisionError
      & MahalanobisDistance.calculate_distance m (image_a algR)
        = Raise ValueError].
Proof.
have [HM _] :=
  @single_band_reference_cannot_score algR (@toy_log_prob algR)
    (uniform_reference 0 1 101) (full_annotation 101) (erefl _).
have [m E] : exists m,
    MahalanobisDistance.init (uniform_reference (0 : algR) 1 101)
      (full_annotation 101) None = Ok m.
  by eexists; rewrite /MahalanobisDistance.init uniform_init_1.
have [Eb Es _ H] := HM m E.
by exists m; split;
  [exact: E | exact: Eb | exact: Es | exact: (H (image_a algR) (erefl _))].
Defined.

Lemma fitted_scoring_exceptions_witness :
  exists fitted,
    [/\ MahalanobisDistance.initialize (unfitted_2x4 algR) = Ok fitted,
        MahalanobisDistance.calculate_distance fitted (image_one_band algR)
        = Raise IndexError
      & [\/ IndexError = AssertionError, IndexError = IndexError,
            IndexError = ValueError | IndexError = LinAlgError]].
Proof.
have [_ H _] :=
  @fitted_scoring_exceptions algR (fun _ _ => Raise ValueError)
    (@toy_log_prob algR).
have E : MahalanobisDistance.initialize (unfitted_2x4 algR)
         = Ok (with_statistics (unfitted_2x4 algR)).
  rewrite /MahalanobisDistance.initialize.
  by rewrite (@calculate_statistics_ok _ _ 2 4).
have Ec : MahalanobisDistance.calculate_distance
            (with_statistics (unfitted_2x4 algR)) (image_one_band algR)
          = Raise IndexError by [].
by eexists; split;
  [exact: E | exact: Ec
  | exact: (H (unfitted_2x4 algR) _ 2%N 4%N (erefl _) E _ _ Ec)].
Defined.

End FurtherExamples.
